(** * Reflex documentation catalog: extraction and rebuild

    A shallow embedding of [populate_db.py] (with the table declarations of
    [models.py]) and the properties of its metadata extractor and catalog
    builder.

    Text is modelled as lists of ASCII code points; the Python string
    methods, [pathlib] accessors and [re] patterns used by the source are
    written out below for that alphabet ([str.title] and [str.strip] act on
    the ASCII letters and white space).  The document tree is what
    [os.walk] lists, a file being its text or a read error.  The database
    is the two tables with the unique index on [name]; the session keeps
    the committed rows apart from those of the open transaction, so that a
    rebuild is a function from a tree and a database to an outcome and a
    database. *)

From Stdlib Require Import Ascii String List Bool Arith Lia Sorted Permutation.
Import ListNotations.

Set Implicit Arguments.

(** ** Text *)

Definition str := list ascii.

(** A Python string literal. *)
Definition py (s : string) : str := list_ascii_of_string s.

(** The line feed character, written ["\n"] in the source. *)
Definition nl : ascii := ascii_of_nat 10.

(** Lines joined by ["\n"]; used to write documents down. *)
Fixpoint unlines (ls : list string) : str :=
  match ls with
  | [] => []
  | [l] => py l
  | l :: ls' => py l ++ nl :: unlines ls'
  end.

Module PyStr.

(** [str.isspace] on one code point below 128: TAB..CR, FS..US, SPACE.
    The same test drives [\s] in [re] and [str.strip]. *)
Definition is_space (c : ascii) : bool :=
  let n := nat_of_ascii c in
  ((9 <=? n) && (n <=? 13)) || ((28 <=? n) && (n <=? 31)) || (n =? 32).

Definition is_upper (c : ascii) : bool :=
  let n := nat_of_ascii c in (65 <=? n) && (n <=? 90).

Definition is_lower (c : ascii) : bool :=
  let n := nat_of_ascii c in (97 <=? n) && (n <=? 122).

Definition is_cased (c : ascii) : bool := is_upper c || is_lower c.

Definition to_upper (c : ascii) : ascii :=
  if is_lower c then ascii_of_nat (nat_of_ascii c - 32) else c.

Definition to_lower (c : ascii) : ascii :=
  if is_upper c then ascii_of_nat (nat_of_ascii c + 32) else c.

(** Truth value of a string in a condition: non-empty. *)
Definition truthy (s : str) : bool :=
  match s with [] => false | _ :: _ => true end.

Fixpoint eqb (a b : str) : bool :=
  match a, b with
  | [], [] => true
  | x :: a', y :: b' => Ascii.eqb x y && eqb a' b'
  | _, _ => false
  end.

Fixpoint lstrip (s : str) : str :=
  match s with
  | c :: s' => if is_space c then lstrip s' else s
  | [] => []
  end.

Definition rstrip (s : str) : str := rev (lstrip (rev s)).

(** [s.strip()] *)
Definition strip (s : str) : str := rstrip (lstrip s).

(** [s.replace(old, new)] for one-character [old] and [new]. *)
Definition replace (old new : ascii) (s : str) : str :=
  map (fun c => if Ascii.eqb c old then new else c) s.

(** [s.title()]: a cased character is upper-cased when the character
    before it is not cased, and lower-cased otherwise. *)
Fixpoint title_from (previous_is_cased : bool) (s : str) : str :=
  match s with
  | [] => []
  | c :: s' =>
      (if previous_is_cased then to_lower c else to_upper c)
        :: title_from (is_cased c) s'
  end.

Definition title (s : str) : str := title_from false s.

(** [s.startswith(p)] *)
Fixpoint startswith (p s : str) : bool :=
  match p, s with
  | [], _ => true
  | x :: p', y :: s' => Ascii.eqb x y && startswith p' s'
  | _ :: _, [] => false
  end.

(** [s.endswith(p)] *)
Definition endswith (p s : str) : bool := startswith (rev p) (rev s).

(** [p in s]: [p] occurs in [s] as a substring. *)
Fixpoint contains (p s : str) : bool :=
  startswith p s ||
  match s with
  | [] => false
  | _ :: s' => contains p s'
  end.

(** [s.split(sep)] for a one-character separator. *)
Fixpoint split (sep : ascii) (s : str) : list str :=
  match s with
  | [] => [[]]
  | c :: s' =>
      if Ascii.eqb c sep then [] :: split sep s'
      else match split sep s' with
           | w :: ws => (c :: w) :: ws
           | [] => [[c]]
           end
  end.

(** [s.rfind(c)], as [None] for -1. *)
Fixpoint rfind (c : ascii) (s : str) : option nat :=
  match s with
  | [] => None
  | x :: s' =>
      match rfind c s' with
      | Some i => Some (S i)
      | None => if Ascii.eqb x c then Some 0 else None
      end
  end.

End PyStr.

(** [x in xs] and [xs.index(x)] on a tuple of strings. *)
Fixpoint tuple_in (x : str) (xs : list str) : bool :=
  match xs with
  | [] => false
  | y :: xs' => PyStr.eqb y x || tuple_in x xs'
  end.

Fixpoint tuple_index (x : str) (xs : list str) : nat :=
  match xs with
  | [] => 0
  | y :: xs' => if PyStr.eqb y x then 0 else S (tuple_index x xs')
  end.

(** ** Paths *)

Module OsPath.

(** [os.path.join(a, b)] on POSIX. *)
Definition join (a b : str) : str :=
  if PyStr.startswith (py "/") b then b
  else if negb (PyStr.truthy a) || PyStr.endswith (py "/") a then a ++ b
  else a ++ py "/" ++ b.

End OsPath.

Module PurePath.

(** The root of a POSIX path: ["/"], ["//"] for exactly two leading
    slashes, or none. *)
Definition root (p : str) : str :=
  if PyStr.startswith (py "/") p then
    if PyStr.startswith (py "//") p && negb (PyStr.startswith (py "///") p)
    then py "//" else py "/"
  else [].

(** The path components after the root: empty and ["."] segments are
    dropped. *)
Definition tail (p : str) : list str :=
  filter (fun x => PyStr.truthy x && negb (PyStr.eqb x (py ".")))
         (PyStr.split "/" p).

(** [Path(p).parts] *)
Definition parts (p : str) : list str :=
  (if PyStr.truthy (root p) then [root p] else []) ++ tail p.

(** [Path(p).name] *)
Definition name (p : str) : str := last (tail p) [].

(** [Path(p).stem]: the name up to its last dot, when that dot is
    neither the first nor the last character. *)
Definition stem (p : str) : str :=
  let n := name p in
  match PyStr.rfind "." n with
  | Some i => if (0 <? i) && (i <? length n - 1) then firstn i n else n
  | None => n
  end.

End PurePath.

(** ** Classification from the path *)

Definition normalize_segment (s : str) : str :=
  PyStr.title (PyStr.replace "-" " " (PyStr.replace "_" " " s)).

Definition get_category_from_path (file_path : str) : str :=
  let path_parts := PurePath.parts file_path in
  if tuple_in (py "library") path_parts then
    let library_idx := tuple_index (py "library") path_parts in
    if library_idx + 1 <? length path_parts then
      normalize_segment (nth (library_idx + 1) path_parts [])
    else py "Other"
  else py "Other".

Definition get_section_from_path (file_path : str) : str :=
  let path_parts := PurePath.parts file_path in
  if tuple_in (py "reflex_docs") path_parts then
    let docs_idx := tuple_index (py "reflex_docs") path_parts in
    if docs_idx + 1 <? length path_parts then
      normalize_segment (nth (docs_idx + 1) path_parts [])
    else py "Other"
  else py "Other".

(** ** Regular expressions

    The fragment of Python's [re] that the five patterns of the source are
    written in, with its backtracking order: a matcher returns every way of
    matching at a position, most preferred first, and [search] takes the
    first way at the leftmost position that has one. *)

Module Re.

(** Character classes: [\s], [.] and [[^\n]]. *)
Inductive cls := Space | Dot | NotNewline.

Inductive re :=
| Lit (s : str)                               (* literal text *)
| Rep (c : cls) (lo : nat) (greedy : bool)    (* c*, c+, c*?, c+? *)
| Bol                                         (* ^ *)
| Eol                                         (* $ *)
| Group (r : re)                              (* ( ... ), group 1 *)
| Cat (r1 r2 : re)
| Alt (r1 r2 : re).                           (* (?: r1 | r2 ) *)

Record flags := { DOTALL : bool; MULTILINE : bool }.

(** A position in the subject: the text before it (nearest character
    first), the text after it, and what group 1 holds. *)
Record state := {
  left : str;
  rest : str;
  group : option str
}.

Definition in_cls (fl : flags) (c : cls) (ch : ascii) : bool :=
  match c with
  | Space => PyStr.is_space ch
  | Dot => DOTALL fl || negb (Ascii.eqb ch nl)
  | NotNewline => negb (Ascii.eqb ch nl)
  end.

(** Length of the longest prefix made of characters satisfying [p]. *)
Fixpoint span (p : ascii -> bool) (s : str) : nat :=
  match s with
  | c :: s' => if p c then S (span p s') else 0
  | [] => 0
  end.

Definition advance (k : nat) (st : state) : state :=
  {| left := rev (firstn k (rest st)) ++ left st;
     rest := skipn k (rest st);
     group := group st |}.

(** The repetition counts a quantifier tries, in the order it tries
    them: longest first when greedy, shortest first when lazy. *)
Definition counts (lo hi : nat) (greedy : bool) : list nat :=
  let up := seq lo (S hi - lo) in
  if greedy then rev up else up.

Definition at_bol (fl : flags) (st : state) : bool :=
  match left st with
  | [] => true
  | c :: _ => MULTILINE fl && Ascii.eqb c nl
  end.

Definition at_eol (fl : flags) (st : state) : bool :=
  match rest st with
  | [] => true
  | c :: r => Ascii.eqb c nl && (MULTILINE fl || negb (PyStr.truthy r))
  end.

Fixpoint run (fl : flags) (r : re) (st : state) : list state :=
  match r with
  | Lit s =>
      if PyStr.startswith s (rest st) then [advance (length s) st] else []
  | Rep c lo greedy =>
      map (fun k => advance k st)
          (counts lo (span (in_cls fl c) (rest st)) greedy)
  | Bol => if at_bol fl st then [st] else []
  | Eol => if at_eol fl st then [st] else []
  | Group r1 =>
      map (fun st' =>
             {| left := left st'; rest := rest st';
                group := Some (firstn (length (rest st) - length (rest st'))
                                      (rest st)) |})
          (run fl r1 st)
  | Cat r1 r2 => flat_map (run fl r2) (run fl r1 st)
  | Alt r1 r2 => run fl r1 st ++ run fl r2 st
  end.

(** [re.search]: start positions from left to right, the end of the
    subject included. *)
Fixpoint search_from (fl : flags) (r : re) (before after : str)
  : option state :=
  match run fl r {| left := before; rest := after; group := None |} with
  | m :: _ => Some m
  | [] =>
      match after with
      | [] => None
      | c :: after' => search_from fl r (c :: before) after'
      end
  end.

Definition search (fl : flags) (r : re) (subject : str) : option state :=
  search_from fl r [] subject.

(** [m.group(1)] *)
Definition group1 (m : state) : str :=
  match group m with Some g => g | None => [] end.

Definition no_flags := {| DOTALL := false; MULTILINE := false |}.
Definition dotall := {| DOTALL := true; MULTILINE := false |}.
Definition multiline := {| DOTALL := false; MULTILINE := true |}.

End Re.

Import Re.

Infix ">>" := Cat (at level 61, right associativity).

(** [r"---\s*\n(.*?)\n---"] *)
Definition frontmatter_re : re :=
  Lit (py "---") >> Rep Space 0 true >> Lit [nl] >>
  Group (Rep Dot 0 false) >> Lit (nl :: py "---").

(** [r"components:\s*\n\s*-\s*([^\n]+)"] *)
Definition components_re : re :=
  Lit (py "components:") >> Rep Space 0 true >> Lit [nl] >>
  Rep Space 0 true >> Lit (py "-") >> Rep Space 0 true >>
  Group (Rep NotNewline 1 true).

(** [r"^#\s+(.+?)$"] *)
Definition heading_re : re :=
  Bol >> Lit (py "#") >> Rep Space 1 true >> Group (Rep Dot 1 false) >> Eol.

(** [(?:\n\n|\n#|$)] *)
Definition paragraph_end : re :=
  Alt (Lit [nl; nl]) (Alt (Lit (nl :: py "#")) Eol).

(** [rf"#\s+{re.escape(name)}\s*\n\s*(.+?)(?:\n\n|\n#|$)"]; the escaped
    name matches itself, character for character. *)
Definition description_re (name : str) : re :=
  Lit (py "#") >> Rep Space 1 true >> Lit name >> Rep Space 0 true >>
  Lit [nl] >> Rep Space 0 true >> Group (Rep Dot 1 false) >> paragraph_end.

(** [r"#\s+.+?\n\s*(.+?)(?:\n\n|\n#|$)"] *)
Definition doc_description_re : re :=
  Lit (py "#") >> Rep Space 1 true >> Rep Dot 1 false >>
  Lit [nl] >> Rep Space 0 true >> Group (Rep Dot 1 false) >> paragraph_end.

(** ** Metadata extraction *)

(** [not name] for a name that is [None] or a string. *)
Definition is_set (o : option str) : bool :=
  match o with Some s => PyStr.truthy s | None => false end.

Definition stem_name (file_path : str) : str :=
  PyStr.title (PyStr.replace "_" " " (PurePath.stem file_path)).

Definition frontmatter_name (content : str) : option str :=
  match search dotall frontmatter_re content with
  | Some frontmatter_match =>
      let frontmatter := group1 frontmatter_match in
      match search no_flags components_re frontmatter with
      | Some components_match => Some (PyStr.strip (group1 components_match))
      | None => None
      end
  | None => None
  end.

Definition heading_name (content : str) : option str :=
  match search multiline heading_re content with
  | Some heading_match => Some (PyStr.strip (group1 heading_match))
  | None => None
  end.

Definition extract_component_info (content file_path : str) : str * str :=
  let name := frontmatter_name content in
  let name :=
    if negb (is_set name) then
      match heading_name content with Some h => Some h | None => name end
    else name in
  let description :=
    match name with
    | Some n =>
        if PyStr.truthy n then
          match search dotall (description_re n) content with
          | Some desc_match => Some (PyStr.strip (group1 desc_match))
          | None => None
          end
        else None
    | None => None
    end in
  let name :=
    match name with
    | Some n => if PyStr.truthy n then n else stem_name file_path
    | None => stem_name file_path
    end in
  (name, match description with
         | Some d => if PyStr.truthy d then d else []
         | None => []
         end).

(** The name and description the documentation walk computes for a file
    (lines 131-141 and 151-155 of [populate_database]). *)
Definition doc_name (content file_path : str) : str :=
  match search multiline heading_re content with
  | Some title_match => PyStr.strip (group1 title_match)
  | None =>
      PyStr.title (PyStr.replace "-" " "
                     (PyStr.replace "_" " " (PurePath.stem file_path)))
  end.

Definition doc_description (content : str) : str :=
  match search dotall doc_description_re content with
  | Some desc_match => PyStr.strip (group1 desc_match)
  | None => []
  end.

(** ** The document tree *)

(** A directory as [os.walk] sees it: its files and its sub-directories,
    each in listing order.  A file carries what reading it as UTF-8
    gives: its text, or [None] when [open] or [read] raises. *)
#[warnings="-register-all"]
Inductive tree :=
| Dir (files : list (str * option str)) (dirs : list (str * tree)).

(** [os.walk(top)], top-down: the [(root, files)] of every directory. *)
Fixpoint walk (top : str) (t : tree) : list (str * list (str * option str)) :=
  match t with
  | Dir files dirs =>
      (top, files)
        :: flat_map (fun d => walk (OsPath.join top (fst d)) (snd d)) dirs
  end.

(** The sub-directory a path component names, if the directory has it. *)
Fixpoint subdir (name : str) (dirs : list (str * tree)) : option tree :=
  match dirs with
  | [] => None
  | (n, t) :: dirs' => if PyStr.eqb n name then Some t else subdir name dirs'
  end.

(** ** The catalogs *)

(** The rows of [models.py], without the surrogate [id] and the
    [created_at] stamp.  [name] is declared [unique=True] in both. *)
Module Component.
Record t := {
  name : str;
  category : str;
  file_path : str;
  content : str;
  description : str
}.
Definition eqb (a b : t) : bool :=
  PyStr.eqb (name a) (name b) && PyStr.eqb (category a) (category b)
  && PyStr.eqb (file_path a) (file_path b)
  && PyStr.eqb (content a) (content b)
  && PyStr.eqb (description a) (description b).
End Component.

Module DocSection.
Record t := {
  name : str;
  section : str;
  file_path : str;
  content : str;
  description : str
}.
Definition eqb (a b : t) : bool :=
  PyStr.eqb (name a) (name b) && PyStr.eqb (section a) (section b)
  && PyStr.eqb (file_path a) (file_path b)
  && PyStr.eqb (content a) (content b)
  && PyStr.eqb (description a) (description b).
End DocSection.

Record database := {
  components : list Component.t;
  doc_sections : list DocSection.t
}.

Definition empty_db : database := {| components := []; doc_sections := [] |}.

(** ** The session

    A [Session] on the engine: the committed rows other connections read,
    the rows as the open transaction sees them, the objects added or
    deleted since the last flush, and whether the transaction is still
    usable.  A flush sends the pending work to the tables; an insert whose
    name is already in its table violates the unique index, the flush
    raises, the transaction is rolled back and every later statement of the
    session raises until a rollback that [populate_database] never issues. *)

Inductive change :=
| AddComponent (c : Component.t)
| AddDocSection (d : DocSection.t)
| DeleteComponent (c : Component.t)
| DeleteDocSection (d : DocSection.t).

Record session := {
  committed : database;
  rows : database;
  pending : list change;
  active : bool
}.

Inductive outcome (A : Type) :=
| Ok (a : A)
| Raised.
Arguments Ok {A} a.
Arguments Raised {A}.

Definition M (A : Type) : Type := session -> outcome A * session.

Definition ret {A} (a : A) : M A := fun s => (Ok a, s).

Definition bind {A B} (m : M A) (k : A -> M B) : M B :=
  fun s => match m s with
           | (Ok a, s') => k a s'
           | (Raised, s') => (Raised, s')
           end.

Notation "x <- m ;; k" := (bind m (fun x => k))
  (at level 100, m at next level, right associativity).
Notation "m ;; k" := (bind m (fun _ => k))
  (at level 100, right associativity).

Definition raise {A} : M A := fun s => (Raised, s).

(** [try: body except Exception: print(...)] *)
Definition try_except (body : M unit) : M unit :=
  fun s => match body s with
           | (_, s') => (Ok tt, s')
           end.

(** [for x in xs: body(x)] *)
Fixpoint for_each {A} (xs : list A) (body : A -> M unit) : M unit :=
  match xs with
  | [] => ret tt
  | x :: xs' => body x ;; for_each xs' body
  end.

Definition component_names (db : database) : list str :=
  map Component.name (components db).

Definition doc_section_names (db : database) : list str :=
  map DocSection.name (doc_sections db).

(** One pending change applied to the tables; [None] is the integrity
    error of the unique index on [name]. *)
Definition apply_change (db : database) (ch : change) : option database :=
  match ch with
  | AddComponent c =>
      if tuple_in (Component.name c) (component_names db) then None
      else Some {| components := components db ++ [c];
                   doc_sections := doc_sections db |}
  | AddDocSection d =>
      if tuple_in (DocSection.name d) (doc_section_names db) then None
      else Some {| components := components db;
                   doc_sections := doc_sections db ++ [d] |}
  | DeleteComponent c =>
      Some {| components :=
                filter (fun x => negb (Component.eqb x c)) (components db);
              doc_sections := doc_sections db |}
  | DeleteDocSection d =>
      Some {| components := components db;
              doc_sections :=
                filter (fun x => negb (DocSection.eqb x d)) (doc_sections db) |}
  end.

Fixpoint apply_changes (db : database) (chs : list change) : option database :=
  match chs with
  | [] => Some db
  | ch :: chs' =>
      match apply_change db ch with
      | Some db' => apply_changes db' chs'
      | None => None
      end
  end.

Definition flush : M unit := fun s =>
  if active s then
    match apply_changes (rows s) (pending s) with
    | Some db =>
        (Ok tt, {| committed := committed s; rows := db;
                   pending := []; active := true |})
    | None =>
        (Raised, {| committed := committed s; rows := committed s;
                    pending := []; active := false |})
    end
  else (Raised, s).

(** [session.exec(select(...))]: the session flushes, then reads. *)
Definition exec {A} (query : database -> A) : M A :=
  flush ;; fun s => (Ok (query (rows s)), s).

Definition add (ch : change) : M unit := fun s =>
  (Ok tt, {| committed := committed s; rows := rows s;
             pending := pending s ++ [ch]; active := active s |}).

Definition commit : M unit :=
  flush ;; fun s =>
    (Ok tt, {| committed := rows s; rows := rows s;
               pending := []; active := true |}).

(** [open(file_path).read()] *)
Definition read (f : option str) : M str :=
  match f with Some text => ret text | None => raise end.

(** ** The rebuild *)

Definition docs_path : str := py "reflex_docs".

(** [select(Component).where(Component.name == name)] and [.first()] *)
Definition first_component (name : str) (db : database) : option Component.t :=
  find (fun c => PyStr.eqb (Component.name c) name) (components db).

Definition first_doc_section (name : str) (db : database) : option DocSection.t :=
  find (fun d => PyStr.eqb (DocSection.name d) name) (doc_sections db).

Definition is_some {A} (o : option A) : bool :=
  match o with Some _ => true | None => false end.

(** [f"{name}_{classification}"] *)
Definition suffixed (name classification : str) : str :=
  name ++ py "_" ++ classification.

(** The body of the component loop for one file (lines 87-116). *)
Definition add_component (root : str) (file : str * option str) : M unit :=
  let file_path := OsPath.join root (fst file) in
  try_except (
    content <- read (snd file) ;;
    let (name, description) := extract_component_info content file_path in
    let category := get_category_from_path file_path in
    existing <- exec (first_component name) ;;
    let name := if is_some existing then suffixed name category else name in
    add (AddComponent {| Component.name := name;
                         Component.category := category;
                         Component.file_path := file_path;
                         Component.content := content;
                         Component.description := description |})).

(** The body of the documentation loop for one file (lines 126-169). *)
Definition add_doc_section (root : str) (file : str * option str) : M unit :=
  let file_path := OsPath.join root (fst file) in
  try_except (
    content <- read (snd file) ;;
    let name := doc_name content file_path in
    let section := get_section_from_path file_path in
    existing <- exec (first_doc_section name) ;;
    let name := if is_some existing then suffixed name section else name in
    let description := doc_description content in
    add (AddDocSection {| DocSection.name := name;
                          DocSection.section := section;
                          DocSection.file_path := file_path;
                          DocSection.content := content;
                          DocSection.description := description |})).

Definition is_markdown (file : str * option str) : bool :=
  PyStr.endswith (py ".md") (fst file).

(** Clear existing data by deleting all records (lines 75-79). *)
Definition clear_existing : M unit :=
  cs <- exec components ;;
  for_each cs (fun c => add (DeleteComponent c)) ;;
  ds <- exec doc_sections ;;
  for_each ds (fun d => add (DeleteDocSection d)) ;;
  commit.

(** Process components (library directory) (lines 82-116). *)
Definition process_components (docs : tree) : M unit :=
  let library_path := OsPath.join docs_path (py "library") in
  match docs with
  | Dir _ dirs =>
      match subdir (py "library") dirs with
      | Some library =>
          for_each (walk library_path library) (fun rf =>
            for_each (filter is_markdown (snd rf)) (add_component (fst rf)))
      | None => ret tt
      end
  end.

(** Process other documentation (lines 119-169). *)
Definition process_documentation (docs : tree) : M unit :=
  for_each (walk docs_path docs) (fun rf =>
    (* Skip library directory as it's already processed *)
    if PyStr.contains (py "library") (fst rf) then ret tt
    else for_each (filter is_markdown (snd rf)) (add_doc_section (fst rf))).

Definition populate (docs : tree) : M unit :=
  clear_existing ;;
  process_components docs ;;
  process_documentation docs ;;
  commit.

(** [populate_database()] run against the tree under [reflex_docs] and a
    database: whether it returned or raised, and the rows the database
    holds afterwards.  Leaving the [with Session] block closes the session,
    which discards whatever was not committed. *)
Definition populate_database (docs : tree) (db : database)
  : outcome unit * database :=
  match populate docs {| committed := db; rows := db;
                         pending := []; active := true |} with
  | (result, s) => (result, committed s)
  end.

(** ** What a rebuild stages

    The records a rebuild hands to the session, written as plain folds
    over the files in discovery order.  They are what the statements about
    [populate_database] are compared with. *)

(** The markdown files the walk of [top] reaches, with their full paths;
    directories whose path satisfies [skip] are passed over. *)
Definition markdown_files (skip : str -> bool) (top : str) (t : tree)
  : list (str * option str) :=
  flat_map (fun rf =>
              if skip (fst rf) then []
              else map (fun f => (OsPath.join (fst rf) (fst f), snd f))
                       (filter is_markdown (snd rf)))
           (walk top t).

Definition library_files (docs : tree) : list (str * option str) :=
  match docs with
  | Dir _ dirs =>
      match subdir (py "library") dirs with
      | Some library =>
          markdown_files (fun _ => false)
                         (OsPath.join docs_path (py "library")) library
      | None => []
      end
  end.

Definition doc_files (docs : tree) : list (str * option str) :=
  markdown_files (PyStr.contains (py "library")) docs_path docs.

(** The record drafted for one readable file, renamed when its name is
    among [taken]. *)
Definition staged_component (taken : list str) (file_path content : str)
  : Component.t :=
  let name := fst (extract_component_info content file_path) in
  let category := get_category_from_path file_path in
  {| Component.name :=
       if tuple_in name taken then suffixed name category else name;
     Component.category := category;
     Component.file_path := file_path;
     Component.content := content;
     Component.description := snd (extract_component_info content file_path) |}.

Definition staged_doc_section (taken : list str) (file_path content : str)
  : DocSection.t :=
  let name := doc_name content file_path in
  let section := get_section_from_path file_path in
  {| DocSection.name :=
       if tuple_in name taken then suffixed name section else name;
     DocSection.section := section;
     DocSection.file_path := file_path;
     DocSection.content := content;
     DocSection.description := doc_description content |}.

Fixpoint stage_components (acc : list Component.t)
  (fs : list (str * option str)) : list Component.t :=
  match fs with
  | [] => acc
  | (_, None) :: fs' => stage_components acc fs'
  | (p, Some text) :: fs' =>
      stage_components
        (acc ++ [staged_component (map Component.name acc) p text]) fs'
  end.

Fixpoint stage_doc_sections (acc : list DocSection.t)
  (fs : list (str * option str)) : list DocSection.t :=
  match fs with
  | [] => acc
  | (_, None) :: fs' => stage_doc_sections acc fs'
  | (p, Some text) :: fs' =>
      stage_doc_sections
        (acc ++ [staged_doc_section (map DocSection.name acc) p text]) fs'
  end.

(** No string occurs twice. *)
Fixpoint distinct (l : list str) : bool :=
  match l with
  | [] => true
  | x :: l' => negb (tuple_in x l') && distinct l'
  end.

(** The catalogs a rebuild of [docs] stages. *)
Definition staged (docs : tree) : database :=
  {| components := stage_components [] (library_files docs);
     doc_sections := stage_doc_sections [] (doc_files docs) |}.

(** ** Auxiliary definitions for the statements *)

(** The names a database holds are pairwise different in both tables. *)
Definition distinct_names (cs : list Component.t) (ds : list DocSection.t) : bool :=
  distinct (map Component.name cs) && distinct (map DocSection.name ds).

(** How a session between two files of a rebuild relates to the records
    staged so far: at most one record is waiting for the next flush, the
    flushed rows have pairwise different names, and a session that a
    failed flush left unusable has staged a name twice. *)
Inductive sim : session -> list Component.t -> list DocSection.t -> Prop :=
| sim_flushed cs ds :
    distinct_names cs ds = true ->
    sim {| committed := empty_db;
           rows := {| components := cs; doc_sections := ds |};
           pending := []; active := true |} cs ds
| sim_component cs ds c :
    distinct_names cs ds = true ->
    sim {| committed := empty_db;
           rows := {| components := cs; doc_sections := ds |};
           pending := [AddComponent c]; active := true |} (cs ++ [c]) ds
| sim_doc_section cs ds d :
    distinct_names cs ds = true ->
    sim {| committed := empty_db;
           rows := {| components := cs; doc_sections := ds |};
           pending := [AddDocSection d]; active := true |} cs (ds ++ [d])
| sim_unusable s cs ds :
    committed s = empty_db -> active s = false ->
    distinct_names cs ds = false ->
    sim s cs ds.

Definition with_root (root : str) (files : list (str * option str))
  : list (str * option str) :=
  map (fun f => (OsPath.join root (fst f), snd f)) files.

Definition cleared : session :=
  {| committed := empty_db; rows := empty_db; pending := []; active := true |}.

(** The segment that follows the first occurrence of [marker], normalized;
    ["Other"] when the path has no such segment.  Both classification
    functions are instances of it. *)
Definition classification (marker : str) (path_parts : list str) : str :=
  if tuple_in marker path_parts then
    let idx := tuple_index marker path_parts in
    if idx + 1 <? length path_parts then
      normalize_segment (nth (idx + 1) path_parts [])
    else py "Other"
  else py "Other".

(** A name a directory listing can hold: not empty, without a slash, and
    not the entry of the directory itself. *)
Definition valid_name (n : str) : bool :=
  PyStr.truthy n && negb (existsb (Ascii.eqb "/") n)
  && negb (PyStr.eqb n (py ".")).

(** A non-empty path that does not start at the root. *)
Definition relative (p : str) : bool :=
  PyStr.truthy p && negb (PyStr.startswith (py "/") p).

(** Every file and directory of the tree has a valid name. *)
Fixpoint wf_tree (t : tree) : bool :=
  match t with
  | Dir files dirs =>
      forallb (fun f => valid_name (fst f)) files
      && forallb (fun d => valid_name (fst d) && wf_tree (snd d)) dirs
  end.

(** The name [extract_component_info] settles on, before the file-name
    fallback: the frontmatter value when it is not empty, else the first
    heading when there is one. *)
Definition resolved_name (content : str) : option str :=
  if negb (is_set (frontmatter_name content)) then
    match heading_name content with
    | Some h => Some h
    | None => frontmatter_name content
    end
  else frontmatter_name content.

(** The whole subject, read off a position. *)
Definition subject (st : state) : str := rev (left st) ++ rest st.

(** [st'] is [st] moved right over [w], group 1 apart. *)
Definition moved (st : state) (w : str) (st' : state) : Prop :=
  rest st = w ++ rest st' /\ left st' = rev w ++ left st.

(** The position [k] characters on, with those characters in group 1. *)
Definition capture (k : nat) (st : state) : state :=
  {| left := left (advance k st);
     rest := rest (advance k st);
     group := Some (firstn k (rest st)) |}.

(** Where [(?:\n\n|\n#|$)] matches: before a blank line, before a line
    that starts with [#], at the end, or before a final line feed. *)
Definition paragraph_ends (t : str) : bool :=
  PyStr.startswith [nl; nl] t || PyStr.startswith (nl :: py "#") t
  || match t with
     | [] => true
     | c :: r => Ascii.eqb c nl && negb (PyStr.truthy r)
     end.

Definition is_newline (ch : ascii) : bool := Ascii.eqb ch nl.

(** The text is empty or starts a new line. *)
Definition line_ends (t : str) : Prop := t = [] \/ exists t', t = nl :: t'.

(** The files of a list that could be read, with their text. *)
Definition readable (fs : list (str * option str)) : list (str * str) :=
  flat_map (fun f => match snd f with
                     | Some text => [(fst f, text)]
                     | None => []
                     end) fs.

(** The record [r] was made from the file [f]: it carries the file's path
    and text, and is named by the drafted name or by the drafted name with
    one suffix. *)
Definition component_of (r : Component.t) (f : str * str) : Prop :=
  Component.file_path r = fst f /\ Component.content r = snd f
  /\ Component.category r = get_category_from_path (fst f)
  /\ (Component.name r = fst (extract_component_info (snd f) (fst f))
      \/ Component.name r
         = suffixed (fst (extract_component_info (snd f) (fst f)))
                    (Component.category r)).

Definition doc_section_of (r : DocSection.t) (f : str * str) : Prop :=
  DocSection.file_path r = fst f /\ DocSection.content r = snd f
  /\ DocSection.section r = get_section_from_path (fst f)
  /\ (DocSection.name r = doc_name (snd f) (fst f)
      \/ DocSection.name r
         = suffixed (doc_name (snd f) (fst f)) (DocSection.section r)).

(** ** Example documents and trees *)

Definition button_doc : str := unlines ["# Button"; ""; "A button."]%string.

Definition notes_doc : str := unlines ["# Notes"; ""; "Some notes."]%string.

(** Frontmatter naming a component, followed by a heading of its own. *)
Definition guide_doc : str :=
  unlines ["---"; "components:"; "  - rx.button"; "---"; "";
           "# Button Guide"; ""; "How to use buttons."]%string.

(** Frontmatter naming a component, followed by a heading with that name. *)
Definition described_doc : str :=
  unlines ["---"; "components:"; "  - rx.button"; "---"; "";
           "# rx.button"; ""; "A clickable button."; ""; "More text."]%string.

(** A level-2 heading with a paragraph before the first level-1 heading. *)
Definition setup_doc : str :=
  unlines ["## Setup"; "run it"; ""; "# Title"; ""; "intro"]%string.

Definition plain_doc : str := py "Plain text without a heading.".

Definition two_buttons : tree :=
  Dir [] [(py "library",
           Dir [] [(py "forms", Dir [(py "button.md", Some button_doc)] []);
                   (py "inputs", Dir [(py "button.md", Some button_doc)] [])])].

Definition three_buttons : tree :=
  Dir [] [(py "library",
           Dir [] [(py "forms", Dir [(py "button.md", Some button_doc)] []);
                   (py "inputs", Dir [(py "button.md", Some button_doc);
                                      (py "toggle.md", Some button_doc)] [])])].

Definition extras_tree : tree :=
  Dir [] [(py "library",
           Dir [] [(py "forms", Dir [(py "button.md", Some button_doc)] [])]);
          (py "library_extras", Dir [(py "notes.md", Some notes_doc)] [])].

Definition guide_tree : tree :=
  Dir [(py "guide.md", Some guide_doc)] [].

Definition old_catalog : database :=
  {| components :=
       [{| Component.name := py "Old"; Component.category := py "Other";
           Component.file_path := py "reflex_docs/library/old.md";
           Component.content := py "# Old"; Component.description := [] |}];
     doc_sections := [] |}.

(** A session opened on a database. *)
Definition open_session (db : database) : session :=
  {| committed := db; rows := db; pending := []; active := true |}.

(** ** The query layer

    The endpoints of [main.py], read against the rows a database holds.
    A response is the value returned, the status of an [HTTPException],
    or an exception the endpoint does not catch. *)

Inductive response (A : Type) :=
| Returned (a : A)
| HTTPException (status_code : nat)
| Unhandled.
Arguments Returned {A} a.
Arguments HTTPException {A} status_code.
Arguments Unhandled {A}.

(** The fields of [ComponentResponse] and [DocSectionResponse], the
    surrogate [id] apart. *)
Module ComponentResponse.
Record t := {
  name : str;
  category : str;
  content : str;
  description : str
}.
End ComponentResponse.

Module DocSectionResponse.
Record t := {
  name : str;
  section : str;
  content : str;
  description : str
}.
End DocSectionResponse.

(** [a <= b] on strings: code point by code point, a prefix first. *)
Fixpoint str_leb (a b : str) : bool :=
  match a, b with
  | [], _ => true
  | _ :: _, [] => false
  | x :: a', y :: b' =>
      if nat_of_ascii x <? nat_of_ascii y then true
      else if nat_of_ascii y <? nat_of_ascii x then false
      else str_leb a' b'
  end.

Fixpoint insert_by {A} (key : A -> str) (x : A) (l : list A) : list A :=
  match l with
  | [] => [x]
  | y :: l' =>
      if str_leb (key x) (key y) then x :: l else y :: insert_by key x l'
  end.

(** [sorted(xs, key=key)]: ascending, equal keys in their given order. *)
Definition sorted {A} (key : A -> str) (xs : list A) : list A :=
  fold_right (insert_by key) [] xs.

(** Ascending by key. *)
Definition ascending {A} (key : A -> str) (l : list A) : Prop :=
  StronglySorted (fun a b => str_leb (key a) (key b) = true) l.

(** The values a [select(...).distinct()] returns. *)
Fixpoint distinct_values (l : list str) : list str :=
  match l with
  | [] => []
  | x :: l' =>
      if tuple_in x l' then distinct_values l' else x :: distinct_values l'
  end.

(** [lower(s)] of the database engine. *)
Definition lower (s : str) : str := map PyStr.to_lower s.

(** [text LIKE pattern]: [%] stands for any run of characters, [_] for
    any one character, and letters match whatever their case. *)
Fixpoint like (pattern text : str) : bool :=
  match pattern with
  | [] => negb (PyStr.truthy text)
  | c :: pattern' =>
      if Ascii.eqb c "%" then
        (fix any (t : str) : bool :=
           like pattern' t
           || match t with
              | [] => false
              | _ :: t' => any t'
              end) text
      else
        match text with
        | [] => false
        | d :: text' =>
            (Ascii.eqb c "_"
             || Ascii.eqb (PyStr.to_lower c) (PyStr.to_lower d))
            && like pattern' text'
        end
  end.

(** [column.ilike(pattern)], which the engine runs as
    [lower(column) LIKE lower(pattern)]. *)
Definition ilike (column pattern : str) : bool :=
  like (lower pattern) (lower column).

(** [result.scalar_one_or_none()]: raises when there are several rows. *)
Definition scalar_one_or_none {A} (result : list A) : outcome (option A) :=
  match result with
  | [] => Ok None
  | [x] => Ok (Some x)
  | _ :: _ :: _ => Raised
  end.

Definition get_categories (db : database) : list str :=
  sorted (fun c => c) (distinct_values (map Component.category (components db))).

Definition get_sections (db : database) : list str :=
  sorted (fun c => c) (distinct_values (map DocSection.section (doc_sections db))).

Definition get_component_doc (name : str) (db : database)
  : response ComponentResponse.t :=
  let result :=
    filter (fun c => PyStr.eqb (Component.name c) name) (components db) in
  match scalar_one_or_none result with
  | Ok (Some component) =>
      Returned {| ComponentResponse.name := Component.name component;
                  ComponentResponse.category := Component.category component;
                  ComponentResponse.content := Component.content component;
                  ComponentResponse.description :=
                    Component.description component |}
  | Ok None => HTTPException 404
  | Raised => Unhandled
  end.

Definition get_doc (name : str) (db : database)
  : response DocSectionResponse.t :=
  let result :=
    filter (fun d => PyStr.eqb (DocSection.name d) name) (doc_sections db) in
  match scalar_one_or_none result with
  | Ok (Some doc) =>
      Returned {| DocSectionResponse.name := DocSection.name doc;
                  DocSectionResponse.section := DocSection.section doc;
                  DocSectionResponse.content := DocSection.content doc;
                  DocSectionResponse.description := DocSection.description doc |}
  | Ok None => HTTPException 404
  | Raised => Unhandled
  end.

(** The rows [statement] selects once the optional filter is applied. *)
Definition filtered {A} (column : A -> str) (filter_value : option str)
  (table : list A) : list A :=
  match filter_value with
  | Some value =>
      if PyStr.truthy value
      then filter (fun x => ilike (column x) (py "%" ++ value ++ py "%")) table
      else table
  | None => table
  end.

Definition list_components (category : option str) (db : database) : list str :=
  let components := filtered Component.category category (components db) in
  map Component.name (sorted Component.name components).

Definition list_doc_sections (section : option str) (db : database) : list str :=
  let docs := filtered DocSection.section section (doc_sections db) in
  map DocSection.name (sorted DocSection.name docs).

(** ** Trees with files left out *)

(** The tree without the files that [keep] rejects. *)
Fixpoint prune (keep : str * option str -> bool) (t : tree) : tree :=
  match t with
  | Dir files dirs =>
      Dir (filter keep files)
          (map (fun d => (fst d, prune keep (snd d))) dirs)
  end.

(** The name drafted for a readable file of each walk. *)
Definition component_draft (f : str * str) : str :=
  fst (extract_component_info (snd f) (fst f)).

Definition doc_section_draft (f : str * str) : str :=
  doc_name (snd f) (fst f).

(** A string without white space at either end. *)
Definition trimmed (s : str) : Prop :=
  match s with
  | [] => True
  | c :: _ => PyStr.is_space c = false /\ PyStr.is_space (last s c) = false
  end.

(** A tree with a file that cannot be read and a file that is not
    markdown next to the documents. *)
Definition mixed_tree : tree :=
  Dir [(py "index.md", Some notes_doc); (py "broken.md", None);
       (py "logo.png", Some (py "not text"))]
      [(py "library",
        Dir [(py "readme.txt", Some plain_doc)]
            [(py "forms", Dir [(py "button.md", Some button_doc);
                               (py "locked.md", None)] [])])].

Definition intro_doc : str := unlines ["# Intro"; ""; "Welcome."]%string.

Definition input_doc : str := unlines ["# Input"; ""; "A text field."]%string.

(** Two library files that draft "Button" and two documentation files
    that draft "Intro". *)
Definition two_of_each : tree :=
  Dir [] [(py "library",
           Dir [] [(py "forms", Dir [(py "button.md", Some button_doc)] []);
                   (py "inputs", Dir [(py "button.md", Some button_doc)] [])]);
          (py "guides", Dir [(py "intro.md", Some intro_doc)] []);
          (py "api", Dir [(py "intro.md", Some intro_doc)] [])].

(** Several files in each catalog, no two drafting the same name. *)
Definition distinct_tree : tree :=
  Dir [(py "index.md", Some notes_doc)]
      [(py "library",
        Dir [] [(py "forms", Dir [(py "button.md", Some button_doc);
                                  (py "input.md", Some input_doc)] [])]);
       (py "guides", Dir [(py "intro.md", Some intro_doc);
                          (py "guide.md", Some guide_doc)] [])].

(** * Properties *)

Example category_example :
  get_category_from_path (py "reflex_docs/library/forms/button.md") = py "Forms".
Proof. vm_compute. reflexivity. Qed.

Example category_flat :
  get_category_from_path (py "reflex_docs/library/icon_button.md") = py "Icon Button.Md".
Proof. vm_compute. reflexivity. Qed.

Example stem_example : PurePath.stem (py "a/b/icon_button.md") = py "icon_button".
Proof. vm_compute. reflexivity. Qed.
(** ** Strings and tuples *)

Lemma ascii_eqb_true (a b : ascii) : Ascii.eqb a b = true <-> a = b.
Proof. apply Ascii.eqb_eq. Qed.

Lemma eqb_refl (s : str) : PyStr.eqb s s = true.
Proof.
  induction s as [|c s IH]; simpl; [reflexivity|].
  now rewrite Ascii.eqb_refl, IH.
Qed.

Lemma eqb_eq (a b : str) : PyStr.eqb a b = true <-> a = b.
Proof.
  split.
  - revert b; induction a as [|x a IH]; intros [|y b]; simpl; try congruence.
    intros H. apply andb_true_iff in H as [Hx Hab].
    apply Ascii.eqb_eq in Hx. f_equal; auto.
  - intros ->. apply eqb_refl.
Qed.

Lemma eqb_sym (a b : str) : PyStr.eqb a b = PyStr.eqb b a.
Proof.
  destruct (PyStr.eqb a b) eqn:E1, (PyStr.eqb b a) eqn:E2; try reflexivity.
  - apply eqb_eq in E1. subst. now rewrite eqb_refl in E2.
  - apply eqb_eq in E2. subst. now rewrite eqb_refl in E1.
Qed.

Lemma eqb_neq (a b : str) : PyStr.eqb a b = false <-> a <> b.
Proof.
  split.
  - intros H ->. now rewrite eqb_refl in H.
  - intros H. destruct (PyStr.eqb a b) eqn:E; [|reflexivity].
    now apply eqb_eq in E.
Qed.

Lemma tuple_in_In (x : str) (xs : list str) : tuple_in x xs = true <-> In x xs.
Proof.
  induction xs as [|y xs IH]; simpl.
  - split; [discriminate | tauto].
  - rewrite orb_true_iff, IH, eqb_eq. tauto.
Qed.

Lemma tuple_in_app (x : str) (l1 l2 : list str) :
  tuple_in x (l1 ++ l2) = tuple_in x l1 || tuple_in x l2.
Proof.
  induction l1 as [|y l1 IH]; simpl; [reflexivity|].
  now rewrite IH, orb_assoc.
Qed.

Lemma distinct_snoc (l : list str) (x : str) :
  distinct (l ++ [x]) = distinct l && negb (tuple_in x l).
Proof.
  induction l as [|a l IH]; simpl; [reflexivity|].
  rewrite IH, tuple_in_app. simpl. rewrite (eqb_sym x a).
  destruct (tuple_in a l), (PyStr.eqb a x), (distinct l), (tuple_in x l);
    reflexivity.
Qed.

Lemma distinct_NoDup (l : list str) : distinct l = true <-> NoDup l.
Proof.
  induction l as [|a l IH]; simpl.
  - split; [constructor | reflexivity].
  - rewrite andb_true_iff, negb_true_iff, IH. split.
    + intros [Hin Hnd]. constructor; [|assumption].
      intros Hc. apply tuple_in_In in Hc. congruence.
    + intros H. inversion H as [|? ? Hin Hnd]; subst. split; [|assumption].
      destruct (tuple_in a l) eqn:E; [|reflexivity].
      apply tuple_in_In in E. contradiction.
Qed.

Lemma distinct_app_false (l l' : list str) :
  distinct l = false -> distinct (l ++ l') = false.
Proof.
  induction l as [|a l IH]; simpl; [discriminate|].
  intros H. rewrite tuple_in_app.
  destruct (tuple_in a l); simpl; [reflexivity|].
  simpl in H. rewrite (IH H). apply andb_false_r.
Qed.

(** ** The session during a rebuild *)

Arguments extract_component_info : simpl never.
Arguments doc_name : simpl never.
Arguments doc_description : simpl never.
Arguments get_category_from_path : simpl never.
Arguments get_section_from_path : simpl never.
Arguments OsPath.join : simpl never.

Lemma first_component_taken (n : str) (cs : list Component.t) (ds : list DocSection.t) :
  is_some (first_component n {| components := cs; doc_sections := ds |})
  = tuple_in n (map Component.name cs).
Proof.
  unfold first_component; simpl.
  induction cs as [|c cs IH]; simpl; [reflexivity|].
  destruct (PyStr.eqb (Component.name c) n); simpl; [reflexivity | exact IH].
Qed.

Lemma first_doc_section_taken (n : str) (cs : list Component.t) (ds : list DocSection.t) :
  is_some (first_doc_section n {| components := cs; doc_sections := ds |})
  = tuple_in n (map DocSection.name ds).
Proof.
  unfold first_doc_section; simpl.
  induction ds as [|d ds IH]; simpl; [reflexivity|].
  destruct (PyStr.eqb (DocSection.name d) n); simpl; [reflexivity | exact IH].
Qed.

Lemma distinct_names_component_false cs ds c :
  distinct_names cs ds = false -> distinct_names (cs ++ [c]) ds = false.
Proof.
  unfold distinct_names. rewrite map_app.
  destruct (distinct (map Component.name cs)) eqn:E; simpl.
  - intros ->. apply andb_false_r.
  - intros _. now rewrite distinct_app_false.
Qed.

Lemma distinct_names_doc_false cs ds d :
  distinct_names cs ds = false -> distinct_names cs (ds ++ [d]) = false.
Proof.
  unfold distinct_names. rewrite map_app.
  destruct (distinct (map DocSection.name ds)) eqn:E; simpl.
  - rewrite andb_true_r. intros ->. reflexivity.
  - intros _. rewrite (distinct_app_false _ _ E). apply andb_false_r.
Qed.

Lemma flush_sim s cs ds :
  sim s cs ds ->
  (flush s = (Ok tt, {| committed := empty_db;
                        rows := {| components := cs; doc_sections := ds |};
                        pending := []; active := true |})
   /\ distinct_names cs ds = true)
  \/ (exists s', flush s = (Raised, s') /\ committed s' = empty_db
                 /\ active s' = false /\ distinct_names cs ds = false).
Proof.
  intros H. destruct H as [cs ds Hd | cs ds c Hd | cs ds d Hd | s cs ds Hc Ha Hd].
  - left. split; [reflexivity | assumption].
  - unfold flush; simpl. unfold component_names; simpl.
    unfold distinct_names in *. rewrite map_app. simpl map.
    rewrite distinct_snoc. simpl.
    apply andb_true_iff in Hd as [Hcs Hds]. rewrite Hcs, Hds.
    destruct (tuple_in (Component.name c) (map Component.name cs)); simpl.
    + right. eexists; repeat split; reflexivity.
    + left. split; reflexivity.
  - unfold flush; simpl. unfold doc_section_names; simpl.
    unfold distinct_names in *. rewrite map_app. simpl map.
    rewrite distinct_snoc. simpl.
    apply andb_true_iff in Hd as [Hcs Hds]. rewrite Hcs, Hds.
    destruct (tuple_in (DocSection.name d) (map DocSection.name ds)); simpl.
    + right. eexists; repeat split; reflexivity.
    + left. split; reflexivity.
  - right. exists s. unfold flush. rewrite Ha. repeat split; assumption.
Qed.

Lemma add_component_sim root file s cs ds :
  sim s cs ds ->
  exists s',
    add_component root file s = (Ok tt, s')
    /\ sim s' (stage_components cs [(OsPath.join root (fst file), snd file)]) ds.
Proof.
  intros Hsim.
  destruct file as [f [text|]];
    unfold add_component, try_except, bind, read, ret, raise, exec;
    cbn [fst snd stage_components].
  - destruct (extract_component_info text (OsPath.join root f)) as [n d] eqn:E.
    unfold bind.
    destruct (flush_sim Hsim) as [[-> Hd] | (s' & -> & Hc & Ha & Hd)].
    + eexists; split; [reflexivity|].
      unfold add; cbn [committed rows pending active app].
      rewrite first_component_taken.
      unfold staged_component. rewrite E. cbn [fst snd].
      now apply sim_component.
    + exists s'. split; [reflexivity|].
      apply sim_unusable; auto using distinct_names_component_false.
  - exists s. split; [reflexivity | assumption].
Qed.

Lemma add_doc_section_sim root file s cs ds :
  sim s cs ds ->
  exists s',
    add_doc_section root file s = (Ok tt, s')
    /\ sim s' cs (stage_doc_sections ds [(OsPath.join root (fst file), snd file)]).
Proof.
  intros Hsim.
  destruct file as [f [text|]];
    unfold add_doc_section, try_except, bind, read, ret, raise, exec;
    cbn [fst snd stage_doc_sections].
  - unfold bind.
    destruct (flush_sim Hsim) as [[-> Hd] | (s' & -> & Hc & Ha & Hd)].
    + eexists; split; [reflexivity|].
      unfold add; cbn [committed rows pending active app].
      rewrite first_doc_section_taken.
      now apply sim_doc_section.
    + exists s'. split; [reflexivity|].
      apply sim_unusable; auto using distinct_names_doc_false.
  - exists s. split; [reflexivity | assumption].
Qed.

Lemma stage_components_app acc fs gs :
  stage_components acc (fs ++ gs) = stage_components (stage_components acc fs) gs.
Proof.
  revert acc; induction fs as [|[p [text|]] fs IH]; intros acc; simpl; auto.
Qed.

Lemma stage_doc_sections_app acc fs gs :
  stage_doc_sections acc (fs ++ gs)
  = stage_doc_sections (stage_doc_sections acc fs) gs.
Proof.
  revert acc; induction fs as [|[p [text|]] fs IH]; intros acc; simpl; auto.
Qed.

Lemma component_files_sim root files s cs ds :
  sim s cs ds ->
  exists s',
    for_each files (add_component root) s = (Ok tt, s')
    /\ sim s' (stage_components cs (with_root root files)) ds.
Proof.
  revert s cs; induction files as [|f files IH]; intros s cs Hsim; simpl.
  - exists s. split; [reflexivity | assumption].
  - destruct (add_component_sim root f Hsim) as (s1 & E1 & H1).
    destruct (IH _ _ H1) as (s2 & E2 & H2).
    exists s2. unfold bind. rewrite E1. split; [exact E2|].
    rewrite <- stage_components_app in H2. exact H2.
Qed.

Lemma doc_files_sim root files s cs ds :
  sim s cs ds ->
  exists s',
    for_each files (add_doc_section root) s = (Ok tt, s')
    /\ sim s' cs (stage_doc_sections ds (with_root root files)).
Proof.
  revert s ds; induction files as [|f files IH]; intros s ds Hsim; simpl.
  - exists s. split; [reflexivity | assumption].
  - destruct (add_doc_section_sim root f Hsim) as (s1 & E1 & H1).
    destruct (IH _ _ H1) as (s2 & E2 & H2).
    exists s2. unfold bind. rewrite E1. split; [exact E2|].
    rewrite <- stage_doc_sections_app in H2. exact H2.
Qed.

Lemma component_walk_sim (w : list (str * list (str * option str))) s cs ds :
  sim s cs ds ->
  exists s',
    for_each w (fun rf =>
      for_each (filter is_markdown (snd rf)) (add_component (fst rf))) s
    = (Ok tt, s')
    /\ sim s' (stage_components cs
                 (flat_map (fun rf => with_root (fst rf)
                                        (filter is_markdown (snd rf))) w)) ds.
Proof.
  revert s cs; induction w as [|rf w IH]; intros s cs Hsim; simpl.
  - exists s. split; [reflexivity | assumption].
  - destruct (component_files_sim (fst rf) (filter is_markdown (snd rf)) Hsim)
      as (s1 & E1 & H1).
    destruct (IH _ _ H1) as (s2 & E2 & H2).
    exists s2. unfold bind. rewrite E1. split; [exact E2|].
    now rewrite stage_components_app.
Qed.

Lemma doc_walk_sim (w : list (str * list (str * option str))) s cs ds :
  sim s cs ds ->
  exists s',
    for_each w (fun rf =>
      if PyStr.contains (py "library") (fst rf) then ret tt
      else for_each (filter is_markdown (snd rf)) (add_doc_section (fst rf))) s
    = (Ok tt, s')
    /\ sim s' cs
         (stage_doc_sections ds
            (flat_map (fun rf =>
                         if PyStr.contains (py "library") (fst rf) then []
                         else with_root (fst rf) (filter is_markdown (snd rf)))
                      w)).
Proof.
  revert s ds; induction w as [|rf w IH]; intros s ds Hsim;
    cbn [for_each flat_map].
  - exists s. split; [reflexivity | assumption].
  - destruct (PyStr.contains (py "library") (fst rf)).
    + destruct (IH _ _ Hsim) as (s2 & E2 & H2).
      exists s2. split; [exact E2 | exact H2].
    + destruct (doc_files_sim (fst rf) (filter is_markdown (snd rf)) Hsim)
        as (s1 & E1 & H1).
      destruct (IH _ _ H1) as (s2 & E2 & H2).
      exists s2. unfold bind. rewrite E1. split; [exact E2|].
      now rewrite stage_doc_sections_app.
Qed.

Lemma commit_sim s cs ds :
  sim s cs ds ->
  exists s',
    commit s = ((if distinct_names cs ds then Ok tt else Raised), s')
    /\ committed s' = if distinct_names cs ds
                      then {| components := cs; doc_sections := ds |}
                      else empty_db.
Proof.
  intros Hsim. unfold commit, bind.
  destruct (flush_sim Hsim) as [[-> Hd] | (s' & -> & Hc & Ha & Hd)]; rewrite Hd.
  - eexists; split; reflexivity.
  - exists s'. split; [reflexivity | assumption].
Qed.

(** ** Clearing the tables *)

Lemma component_eqb_refl (c : Component.t) : Component.eqb c c = true.
Proof. unfold Component.eqb. now rewrite !eqb_refl. Qed.

Lemma doc_section_eqb_refl (d : DocSection.t) : DocSection.eqb d d = true.
Proof. unfold DocSection.eqb. now rewrite !eqb_refl. Qed.

Lemma for_each_add {A} (mk : A -> change) (xs : list A) s :
  for_each xs (fun x => add (mk x)) s
  = (Ok tt, {| committed := committed s; rows := rows s;
               pending := pending s ++ map mk xs; active := active s |}).
Proof.
  revert s; induction xs as [|x xs IH]; intros s; simpl.
  - unfold ret. rewrite app_nil_r. now destruct s.
  - unfold bind, add at 1. rewrite IH; simpl. now rewrite <- app_assoc.
Qed.

Lemma delete_components xs cs ds :
  apply_changes {| components := xs; doc_sections := ds |}
                (map DeleteComponent cs)
  = Some {| components :=
              filter (fun x => forallb (fun c => negb (Component.eqb x c)) cs) xs;
            doc_sections := ds |}.
Proof.
  revert xs; induction cs as [|c cs IH]; intros xs; simpl.
  - f_equal. f_equal. induction xs as [|x xs IHx]; simpl; congruence.
  - rewrite IH. f_equal. f_equal.
    induction xs as [|x xs IHx]; simpl; [reflexivity|].
    destruct (Component.eqb x c); simpl; [exact IHx|].
    destruct (forallb _ cs); simpl; congruence.
Qed.

Lemma delete_doc_sections xs cs ds :
  apply_changes {| components := cs; doc_sections := xs |}
                (map DeleteDocSection ds)
  = Some {| components := cs;
            doc_sections :=
              filter (fun x => forallb (fun d => negb (DocSection.eqb x d)) ds) xs |}.
Proof.
  revert xs; induction ds as [|d ds IH]; intros xs; simpl.
  - f_equal. f_equal. induction xs as [|x xs IHx]; simpl; congruence.
  - rewrite IH. f_equal. f_equal.
    induction xs as [|x xs IHx]; simpl; [reflexivity|].
    destruct (DocSection.eqb x d); simpl; [exact IHx|].
    destruct (forallb _ ds); simpl; congruence.
Qed.

Lemma filter_out_all {A} (eqb : A -> A -> bool) (xs : list A) :
  (forall x, eqb x x = true) ->
  forall ys, incl ys xs ->
  filter (fun x => forallb (fun c => negb (eqb x c)) xs) ys = [].
Proof.
  intros Hrefl ys; induction ys as [|y ys IH]; intros Hincl; simpl;
    [reflexivity|].
  assert (Hy : In y xs) by (apply Hincl; now left).
  assert (E : forallb (fun c => negb (eqb y c)) xs = false).
  { clear -Hrefl Hy. induction xs as [|x xs IHx]; [contradiction|]. simpl.
    destruct Hy as [->|Hy]; [now rewrite Hrefl|].
    rewrite (IHx Hy). apply andb_false_r. }
  rewrite E. apply IH. intros z Hz. apply Hincl. now right.
Qed.

Lemma clear_existing_run (db : database) :
  clear_existing {| committed := db; rows := db; pending := []; active := true |}
  = (Ok tt, cleared).
Proof.
  destruct db as [cs ds].
  unfold clear_existing, exec, bind, flush at 1. cbn.
  rewrite for_each_add. cbn.
  rewrite delete_components.
  rewrite (filter_out_all Component.eqb component_eqb_refl (incl_refl cs)).
  rewrite for_each_add. cbn.
  unfold commit, bind, flush. cbn. rewrite delete_doc_sections.
  rewrite (filter_out_all DocSection.eqb doc_section_eqb_refl (incl_refl ds)).
  reflexivity.
Qed.

Lemma process_components_sim docs :
  exists s,
    process_components docs cleared = (Ok tt, s)
    /\ sim s (stage_components [] (library_files docs)) [].
Proof.
  assert (H0 : sim cleared [] []) by (now apply sim_flushed).
  destruct docs as [files dirs]. unfold process_components, library_files.
  destruct (subdir (py "library") dirs) as [library|].
  - apply component_walk_sim, H0.
  - exists cleared. split; [reflexivity | exact H0].
Qed.

(** A rebuild commits the staged catalogs when their names are pairwise
    different, and otherwise raises and leaves both tables empty. *)
Lemma populate_database_eq (docs : tree) (db : database) :
  populate_database docs db =
    if distinct_names (components (staged docs)) (doc_sections (staged docs))
    then (Ok tt, staged docs)
    else (Raised, empty_db).
Proof.
  unfold populate_database, populate, bind.
  rewrite clear_existing_run.
  destruct (process_components_sim docs) as (s1 & -> & H1).
  destruct (doc_walk_sim (walk docs_path docs) H1) as (s2 & E2 & H2).
  unfold process_documentation. rewrite E2.
  destruct (commit_sim H2) as (s3 & E3 & H3).
  rewrite E3. unfold staged, doc_files, markdown_files. cbn [components doc_sections].
  fold (with_root). unfold with_root in *. rewrite H3.
  now destruct (distinct_names _ _).
Qed.

(** ** Classification *)

Lemma tuple_in_marker (x : str) (before after : list str) :
  tuple_in x (before ++ x :: after) = true.
Proof. apply tuple_in_In, in_elt. Qed.

Lemma tuple_index_marker (x : str) (before after : list str) :
  ~ In x before -> tuple_index x (before ++ x :: after) = length before.
Proof.
  induction before as [|y before IH]; simpl; intros Hn.
  - now rewrite eqb_refl.
  - destruct (PyStr.eqb y x) eqn:E.
    + apply eqb_eq in E. subst. exfalso. apply Hn. now left.
    + f_equal. apply IH. intros Hin. apply Hn. now right.
Qed.

Lemma get_category_classification (file_path : str) :
  get_category_from_path file_path
  = classification (py "library") (PurePath.parts file_path).
Proof. reflexivity. Qed.

Lemma get_section_classification (file_path : str) :
  get_section_from_path file_path
  = classification (py "reflex_docs") (PurePath.parts file_path).
Proof. reflexivity. Qed.

Lemma classification_next (marker next : str) (before after : list str) :
  ~ In marker before ->
  classification marker (before ++ marker :: next :: after)
  = normalize_segment next.
Proof.
  intros Hn. unfold classification.
  rewrite tuple_in_marker, tuple_index_marker by assumption.
  rewrite length_app. simpl length.
  replace (length before + 1 <? length before + S (S (length after))) with true
    by (symmetry; apply Nat.ltb_lt; lia).
  rewrite app_nth2 by lia.
  replace (length before + 1 - length before) with 1 by lia.
  reflexivity.
Qed.

Lemma classification_last (marker : str) (before : list str) :
  ~ In marker before ->
  classification marker (before ++ [marker]) = py "Other".
Proof.
  intros Hn. unfold classification.
  rewrite tuple_in_marker, tuple_index_marker by assumption.
  rewrite length_app. simpl length.
  replace (length before + 1 <? length before + 1) with false
    by (symmetry; apply Nat.ltb_ge; lia).
  reflexivity.
Qed.

Lemma classification_absent (marker : str) (path_parts : list str) :
  ~ In marker path_parts -> classification marker path_parts = py "Other".
Proof.
  intros Hn. unfold classification.
  destruct (tuple_in marker path_parts) eqn:E; [|reflexivity].
  apply tuple_in_In in E. contradiction.
Qed.

(** ** Paths built by the walk *)

Lemma tree_induction (P : tree -> Prop) :
  (forall files dirs, Forall (fun d => P (snd d)) dirs -> P (Dir files dirs)) ->
  forall t, P t.
Proof.
  intros H. fix IH 1. intros [files dirs]. apply H.
  induction dirs as [|d dirs IHd]; constructor; [apply IH | exact IHd].
Qed.

Lemma split_nonempty (sep : ascii) (s : str) : PyStr.split sep s <> [].
Proof.
  induction s as [|c s IH]; simpl; [discriminate|].
  destruct (Ascii.eqb c sep); [discriminate|].
  destruct (PyStr.split sep s); [contradiction | discriminate].
Qed.

Lemma split_app (sep : ascii) (a b : str) :
  PyStr.split sep (a ++ sep :: b) = PyStr.split sep a ++ PyStr.split sep b.
Proof.
  induction a as [|c a IH]; simpl.
  - now rewrite Ascii.eqb_refl.
  - destruct (Ascii.eqb c sep); [now rewrite IH|].
    rewrite IH. destruct (PyStr.split sep a) eqn:E; [|reflexivity].
    now apply split_nonempty in E.
Qed.

Lemma split_plain (sep : ascii) (s : str) :
  existsb (Ascii.eqb sep) s = false -> PyStr.split sep s = [s].
Proof.
  induction s as [|c s IH]; simpl; [reflexivity|].
  rewrite (Ascii.eqb_sym sep c). intros H.
  apply orb_false_iff in H as [Hc Hs]. rewrite Hc, (IH Hs). reflexivity.
Qed.

(** Text after the last separator stays in the last field. *)
Lemma split_suffix (sep : ascii) (s t : str) :
  existsb (Ascii.eqb sep) t = false ->
  PyStr.split sep (s ++ t)
  = removelast (PyStr.split sep s) ++ [last (PyStr.split sep s) [] ++ t].
Proof.
  intros Ht. induction s as [|c s IH]; simpl app.
  - simpl. now apply split_plain.
  - cbn [PyStr.split]. destruct (Ascii.eqb c sep).
    + rewrite IH. pose proof (split_nonempty sep s) as Hne.
      destruct (PyStr.split sep s) as [|w ws]; [contradiction|]. reflexivity.
    + rewrite IH. pose proof (split_nonempty sep s) as Hne.
      destruct (PyStr.split sep s) as [|w ws]; [contradiction|].
      destruct ws; reflexivity.
Qed.

Lemma endswith_app (p s : str) :
  PyStr.endswith p s = true -> exists q, s = q ++ p.
Proof.
  unfold PyStr.endswith. intros H.
  assert (G : forall a b, PyStr.startswith a b = true -> exists r, b = a ++ r).
  { clear. induction a as [|x a IH]; intros b H; simpl in *.
    - now exists b.
    - destruct b as [|y b]; [discriminate|].
      apply andb_true_iff in H as [Hx Hab]. apply Ascii.eqb_eq in Hx. subst.
      destruct (IH _ Hab) as [r ->]. now exists r. }
  destruct (G _ _ H) as [r Hr]. exists (rev r).
  rewrite <- (rev_involutive s), Hr, rev_app_distr, rev_involutive.
  reflexivity.
Qed.

Lemma startswith_app (p r : str) : PyStr.startswith p (p ++ r) = true.
Proof.
  induction p as [|x p IH]; simpl; [reflexivity|].
  now rewrite Ascii.eqb_refl.
Qed.

Lemma endswith_suffix (p q : str) : PyStr.endswith p (q ++ p) = true.
Proof. unfold PyStr.endswith. rewrite rev_app_distr. apply startswith_app. Qed.

Lemma valid_name_spec (n : str) :
  valid_name n = true ->
  n <> [] /\ existsb (Ascii.eqb "/") n = false /\ PyStr.eqb n (py ".") = false
  /\ PyStr.startswith (py "/") n = false.
Proof.
  unfold valid_name. intros H.
  apply andb_true_iff in H as [H Hdot]. apply andb_true_iff in H as [Hne Hsl].
  apply negb_true_iff in Hdot, Hsl.
  destruct n as [|c n]; [discriminate|].
  repeat split; try assumption; try discriminate.
  cbn [existsb] in Hsl. apply orb_false_iff in Hsl as [Hc _].
  unfold py. cbn [list_ascii_of_string PyStr.startswith]. now rewrite Hc.
Qed.

Lemma tail_join (p n : str) :
  PyStr.truthy p = true -> valid_name n = true ->
  PurePath.tail (OsPath.join p n) = PurePath.tail p ++ [n].
Proof.
  intros Hp Hn. destruct (valid_name_spec _ Hn) as (Hne & Hsl & Hdot & Hst).
  assert (Hkeep : (fun x => PyStr.truthy x && negb (PyStr.eqb x (py "."))) n = true).
  { cbn beta. rewrite Hdot. destruct n; [contradiction | reflexivity]. }
  unfold OsPath.join, PurePath.tail. rewrite Hst, Hp. cbn [negb orb].
  destruct (PyStr.endswith (py "/") p) eqn:E.
  - destruct (endswith_app _ _ E) as [q ->].
    change (py "/") with ["/"%char]. rewrite <- app_assoc. cbn [app].
    rewrite !split_app, !filter_app, (split_plain _ _ Hsl).
    cbn [PyStr.split filter]. rewrite Hkeep. cbn. now rewrite app_nil_r.
  - change (py "/" ++ n) with ("/"%char :: n).
    rewrite split_app, filter_app, (split_plain _ _ Hsl).
    cbn [filter]. now rewrite Hkeep.
Qed.

Lemma relative_join (p n : str) :
  relative p = true -> valid_name n = true ->
  relative (OsPath.join p n) = true.
Proof.
  intros Hp Hn. destruct (valid_name_spec _ Hn) as (_ & _ & _ & Hst).
  unfold OsPath.join. rewrite Hst.
  destruct p as [|c p]; [discriminate|].
  cbn [PyStr.truthy negb orb].
  unfold relative in *. destruct (PyStr.endswith (py "/") (c :: p)); exact Hp.
Qed.

Lemma relative_parts (p : str) :
  relative p = true -> PurePath.parts p = PurePath.tail p.
Proof.
  unfold relative, PurePath.parts, PurePath.root. intros H.
  apply andb_true_iff in H as [_ H]. apply negb_true_iff in H. now rewrite H.
Qed.

Lemma parts_join (p n : str) :
  relative p = true -> valid_name n = true ->
  PurePath.parts (OsPath.join p n) = PurePath.parts p ++ [n].
Proof.
  intros Hp Hn.
  rewrite (relative_parts _ (relative_join _ _ Hp Hn)), (relative_parts _ Hp).
  apply tail_join; [|assumption].
  unfold relative in Hp. now apply andb_true_iff in Hp as [Hp _].
Qed.

(** Every directory the walk reaches lies below [top]. *)
Lemma walk_parts (t : tree) :
  forall top, wf_tree t = true -> relative top = true ->
  forall rf, In rf (walk top t) ->
    relative (fst rf) = true
    /\ exists below, PurePath.parts (fst rf) = PurePath.parts top ++ below.
Proof.
  induction t as [files dirs IH] using tree_induction.
  intros top Hwf Hrel rf Hin. cbn [walk] in Hin. cbn [wf_tree] in Hwf.
  apply andb_true_iff in Hwf as [_ Hdirs].
  destruct Hin as [<- | Hin].
  - split; [assumption|]. exists []. cbn [fst]. now rewrite app_nil_r.
  - apply in_flat_map in Hin as (d & Hd & Hin).
    rewrite forallb_forall in Hdirs. rewrite Forall_forall in IH.
    specialize (Hdirs d Hd). apply andb_true_iff in Hdirs as [Hname Hsub].
    destruct (IH d Hd _ Hsub (relative_join _ _ Hrel Hname) rf Hin)
      as (Hr & below & Hparts).
    split; [assumption|]. exists (fst d :: below).
    rewrite Hparts, parts_join by assumption. now rewrite <- app_assoc.
Qed.

Lemma subdir_In (name : str) (dirs : list (str * tree)) (t : tree) :
  subdir name dirs = Some t -> In (name, t) dirs.
Proof.
  induction dirs as [|[n t'] dirs IH]; simpl; [discriminate|].
  destruct (PyStr.eqb n name) eqn:E.
  - intros [= ->]. apply eqb_eq in E. subst. now left.
  - intros H. right. now apply IH.
Qed.

(** The path of a file the component walk processes: the library
    directory, the directories below it, the file name. *)
Lemma library_file_parts (docs : tree) (p : str) (text : option str) :
  wf_tree docs = true ->
  In (p, text) (library_files docs) ->
  exists below file,
    PurePath.parts p
    = py "reflex_docs" :: py "library" :: below ++ [file].
Proof.
  intros Hwf Hin. destruct docs as [files dirs]. unfold library_files in Hin.
  destruct (subdir (py "library") dirs) as [library|] eqn:E; [|contradiction].
  apply subdir_In in E. cbn [wf_tree] in Hwf.
  apply andb_true_iff in Hwf as [_ Hdirs]. rewrite forallb_forall in Hdirs.
  specialize (Hdirs _ E). cbn [fst snd] in Hdirs.
  apply andb_true_iff in Hdirs as [_ Hlib].
  unfold markdown_files in Hin. apply in_flat_map in Hin as (rf & Hrf & Hin).
  cbn beta iota in Hin. apply in_map_iff in Hin as (f & [= <- <-] & Hf).
  apply filter_In in Hf as [Hf _].
  assert (Htop : relative (OsPath.join docs_path (py "library")) = true)
    by reflexivity.
  destruct (walk_parts library _ Hlib Htop rf Hrf) as (Hr & below & Hparts).
  (* the file name is valid: it is listed in a directory of the tree *)
  assert (Hvalid : valid_name (fst f) = true).
  { clear -Hlib Hrf Hf. revert Hlib rf Hrf Hf.
    generalize (OsPath.join docs_path (py "library")).
    induction library as [fs ds IH] using tree_induction.
    intros top Hwf rf Hrf Hf. cbn [wf_tree] in Hwf. cbn [walk] in Hrf.
    apply andb_true_iff in Hwf as [Hfs Hds].
    destruct Hrf as [<- | Hrf].
    - rewrite forallb_forall in Hfs. now apply Hfs.
    - apply in_flat_map in Hrf as (d & Hd & Hrf).
      rewrite forallb_forall in Hds. rewrite Forall_forall in IH.
      specialize (Hds d Hd). apply andb_true_iff in Hds as [_ Hsub].
      exact (IH d Hd _ Hsub rf Hrf Hf). }
  exists below, (fst f).
  rewrite parts_join, Hparts by assumption. reflexivity.
Qed.

(** ** The name of a file *)

Lemma last_filter_keep {A} (f : A -> bool) (l : list A) (x d : A) :
  f x = true -> last (filter f (l ++ [x])) d = x.
Proof.
  intros Hx. rewrite filter_app. cbn [filter]. rewrite Hx. apply last_last.
Qed.

Lemma markdown_path_name (p : str) :
  PyStr.endswith (py ".md") p = true ->
  exists w, PurePath.name p = w ++ py ".md".
Proof.
  intros H. destruct (endswith_app _ _ H) as [q ->].
  unfold PurePath.name, PurePath.tail.
  rewrite (split_suffix "/" q (py ".md")) by reflexivity.
  exists (last (PyStr.split "/" q) []).
  apply last_filter_keep.
  generalize (last (PyStr.split "/" q) []); intros w.
  replace (PyStr.eqb (w ++ py ".md") (py ".")) with false.
  - now destruct w.
  - symmetry. apply eqb_neq. intros E. apply (f_equal (@length _)) in E.
    rewrite length_app in E. cbn in E. lia.
Qed.

Lemma stem_nonempty (p : str) : PurePath.name p <> [] -> PurePath.stem p <> [].
Proof.
  unfold PurePath.stem. intros Hn.
  destruct (PyStr.rfind "." (PurePath.name p)) as [i|]; [|assumption].
  destruct ((0 <? i) && (i <? length (PurePath.name p) - 1)) eqn:E;
    [|assumption].
  apply andb_true_iff in E as [Hi _]. apply Nat.ltb_lt in Hi.
  destruct (PurePath.name p); [contradiction|].
  destruct i; [lia | discriminate].
Qed.

Lemma title_from_length (b : bool) (s : str) :
  length (PyStr.title_from b s) = length s.
Proof. revert b; induction s as [|c s IH]; intros b; simpl; auto. Qed.

Lemma stem_name_nonempty (p : str) : PurePath.name p <> [] -> stem_name p <> [].
Proof.
  intros Hn Hs. apply stem_nonempty in Hn. apply Hn.
  apply (f_equal (@length _)) in Hs.
  unfold stem_name, PyStr.title, PyStr.replace in Hs.
  rewrite title_from_length, length_map in Hs.
  now apply length_zero_iff_nil.
Qed.

Lemma truthy_nonempty (s : str) : PyStr.truthy s = true <-> s <> [].
Proof. destruct s; simpl; split; congruence. Qed.

Lemma extract_name (content file_path : str) :
  fst (extract_component_info content file_path)
  = if is_set (resolved_name content)
    then match resolved_name content with Some n => n | None => [] end
    else stem_name file_path.
Proof.
  unfold extract_component_info. fold (resolved_name content).
  cbn [fst]. destruct (resolved_name content) as [n|]; cbn [is_set];
    [destruct (PyStr.truthy n)|]; reflexivity.
Qed.

Lemma extract_description (content file_path : str) :
  snd (extract_component_info content file_path)
  = match resolved_name content with
    | Some n =>
        if PyStr.truthy n then
          match search dotall (description_re n) content with
          | Some m => PyStr.strip (group1 m)
          | None => []
          end
        else []
    | None => []
    end.
Proof.
  unfold extract_component_info. fold (resolved_name content).
  cbn [snd]. destruct (resolved_name content) as [n|]; [|reflexivity].
  destruct (PyStr.truthy n); [|reflexivity].
  destruct (search dotall (description_re n) content) as [m|]; [|reflexivity].
  now destruct (PyStr.strip (group1 m)).
Qed.

(** ** What a match consumed *)

Lemma moved_subject st w st' : moved st w st' -> subject st' = subject st.
Proof.
  unfold moved, subject. intros [Hr Hl].
  now rewrite Hr, Hl, rev_app_distr, rev_involutive, <- app_assoc.
Qed.

Lemma moved_refl st : moved st [] st.
Proof. split; reflexivity. Qed.

Lemma moved_trans st1 w1 st2 w2 st3 :
  moved st1 w1 st2 -> moved st2 w2 st3 -> moved st1 (w1 ++ w2) st3.
Proof.
  unfold moved. intros [Hr1 Hl1] [Hr2 Hl2]. split.
  - now rewrite Hr1, Hr2, app_assoc.
  - now rewrite Hl2, Hl1, rev_app_distr, app_assoc.
Qed.

Lemma moved_advance (k : nat) (st : state) :
  moved st (firstn k (rest st)) (advance k st).
Proof. split; cbn; [now rewrite firstn_skipn | reflexivity]. Qed.

Lemma startswith_split (a b : str) :
  PyStr.startswith a b = true -> b = a ++ skipn (length a) b.
Proof.
  revert b; induction a as [|x a IH]; intros b H; simpl in *; [reflexivity|].
  destruct b as [|y b]; [discriminate|].
  apply andb_true_iff in H as [Hx Hab]. apply Ascii.eqb_eq in Hx. subst.
  simpl. f_equal. now apply IH.
Qed.

Lemma firstn_prefix (a r : str) : firstn (length a) (a ++ r) = a.
Proof. now rewrite firstn_app, Nat.sub_diag, firstn_all, app_nil_r. Qed.

Lemma run_Lit (fl : flags) (s : str) (st st' : state) :
  In st' (run fl (Lit s) st) -> moved st s st' /\ group st' = group st.
Proof.
  cbn [run]. destruct (PyStr.startswith s (rest st)) eqn:E; [|contradiction].
  intros [<- | []]. split; [|reflexivity].
  pose proof (startswith_split _ _ E) as Hs.
  assert (Hf : firstn (length s) (rest st) = s)
    by (rewrite Hs; apply firstn_prefix).
  unfold moved. cbn [advance rest left]. now rewrite Hf.
Qed.

Lemma span_firstn (p : ascii -> bool) (s : str) (k : nat) :
  k <= span p s -> forallb p (firstn k s) = true /\ length (firstn k s) = k.
Proof.
  revert k; induction s as [|c s IH]; intros k Hk; simpl in *.
  - assert (k = 0) by lia. subst. now split.
  - destruct k; [now split|]. destruct (p c) eqn:E; [|lia].
    destruct (IH k ltac:(lia)) as [H1 H2]. simpl. rewrite E, H1, H2. now split.
Qed.

Lemma span_stop (p : ascii -> bool) (s : str) :
  match skipn (span p s) s with
  | [] => True
  | c :: _ => p c = false
  end.
Proof.
  induction s as [|c s IH]; simpl; [exact I|].
  destruct (p c) eqn:E; simpl; [exact IH | exact E].
Qed.

Lemma counts_In (lo hi k : nat) (greedy : bool) :
  In k (counts lo hi greedy) <-> lo <= k <= hi.
Proof.
  unfold counts. destruct greedy; [rewrite <- in_rev|]; rewrite in_seq; lia.
Qed.

Lemma run_Rep (fl : flags) (c : cls) (lo : nat) (greedy : bool) (st st' : state) :
  In st' (run fl (Rep c lo greedy) st) ->
  exists w, moved st w st' /\ group st' = group st
            /\ forallb (in_cls fl c) w = true /\ lo <= length w.
Proof.
  cbn [run]. intros H. apply in_map_iff in H as (k & <- & Hk).
  apply counts_In in Hk as [Hlo Hhi].
  destruct (span_firstn _ _ Hhi) as [Hall Hlen].
  exists (firstn k (rest st)). repeat split.
  - cbn. now rewrite firstn_skipn.
  - exact Hall.
  - lia.
Qed.

(** The first way a sequence matches goes through one of the ways its
    first part matches. *)
Lemma flat_map_head {A B} (f : A -> list B) (l : list A) (m : B) (tl : list B) :
  flat_map f l = m :: tl ->
  exists pre x post tl', l = pre ++ x :: post /\ f x = m :: tl'
                         /\ Forall (fun y => f y = []) pre.
Proof.
  induction l as [|a l IH]; simpl; [discriminate|].
  destruct (f a) as [|b bs] eqn:E.
  - intros H. destruct (IH H) as (pre & x & post & tl' & -> & Hx & Hpre).
    exists (a :: pre), x, post, tl'. repeat split; auto.
  - intros [= -> <-]. exists [], a, l, bs. repeat split; auto.
Qed.

Lemma run_Cat_head (fl : flags) (r1 r2 : re) (st m : state) (tl : list state) :
  run fl (r1 >> r2) st = m :: tl ->
  exists st1 tl', In st1 (run fl r1 st) /\ run fl r2 st1 = m :: tl'.
Proof.
  cbn [run]. intros H.
  destruct (flat_map_head _ _ H) as (pre & x & post & tl' & E & Hx & _).
  exists x, tl'. split; [|assumption]. rewrite E. apply in_elt.
Qed.

Lemma search_from_head (fl : flags) (r : re) (after before : str) (m : state) :
  search_from fl r before after = Some m ->
  exists before' after' tl,
    rev before' ++ after' = rev before ++ after
    /\ run fl r {| left := before'; rest := after'; group := None |} = m :: tl.
Proof.
  revert before; induction after as [|c after IH]; intros before; cbn [search_from].
  - destruct (run fl r _) as [|m' tl] eqn:E; [discriminate|].
    intros [= ->]. now exists before, [], tl.
  - destruct (run fl r _) as [|m' tl] eqn:E.
    + intros H. destruct (IH _ H) as (b' & a' & tl & Hs & Hr).
      exists b', a', tl. split; [|assumption].
      rewrite Hs. cbn [rev]. now rewrite <- app_assoc.
    + intros [= ->]. now exists before, (c :: after), tl.
Qed.

Lemma search_head (fl : flags) (r : re) (s : str) (m : state) :
  search fl r s = Some m ->
  exists st tl, subject st = s /\ group st = None /\ run fl r st = m :: tl.
Proof.
  intros H. destruct (search_from_head _ _ _ _ H) as (b & a & tl & Hs & Hr).
  exists {| left := b; rest := a; group := None |}, tl.
  repeat split; assumption.
Qed.

Lemma span_le (p : ascii -> bool) (s : str) : span p s <= length s.
Proof. induction s as [|c s IH]; simpl; [lia|]. destruct (p c); lia. Qed.

Lemma run_Group_Rep (fl : flags) (c : cls) (lo : nat) (greedy : bool) (st : state) :
  run fl (Group (Rep c lo greedy)) st
  = map (fun k => capture k st)
        (counts lo (span (in_cls fl c) (rest st)) greedy).
Proof.
  cbn [run]. rewrite map_map. apply map_ext_in. intros k Hk.
  apply counts_In in Hk as [_ Hk].
  pose proof (span_le (in_cls fl c) (rest st)).
  unfold capture. cbn [advance left rest]. rewrite length_skipn.
  now replace (length (rest st) - (length (rest st) - k)) with k by lia.
Qed.

Lemma map_seq_split {A} (h : nat -> A) (a n : nat) (pre post : list A) (x : A) :
  map h (seq a n) = pre ++ x :: post ->
  x = h (a + length pre) /\ length pre < n
  /\ forall j, a <= j < a + length pre -> In (h j) pre.
Proof.
  revert a n; induction pre as [|y pre IH]; intros a n H.
  - destruct n; [discriminate|]. cbn in H. injection H as <- _.
    rewrite Nat.add_0_r. repeat split; [cbn; lia|]. cbn. lia.
  - destruct n; [discriminate|]. cbn in H. injection H as <- H.
    destruct (IH _ _ H) as (Hx & Hlen & Hin).
    cbn [length]. rewrite Nat.add_succ_r. repeat split; [exact Hx | lia |].
    intros j Hj. destruct (Nat.eq_dec j a) as [->|]; [now left|].
    right. apply Hin. lia.
Qed.

(** A lazy group takes the least count at which what follows matches. *)
Lemma lazy_group_head (fl : flags) (c : cls) (lo : nat) (e : re)
      (st m : state) (tl : list state) :
  run fl (Group (Rep c lo false) >> e) st = m :: tl ->
  exists k tl',
    lo <= k <= span (in_cls fl c) (rest st)
    /\ run fl e (capture k st) = m :: tl'
    /\ forall j, lo <= j < k -> run fl e (capture j st) = [].
Proof.
  cbn [run]. fold (run fl (Group (Rep c lo false)) st).
  rewrite run_Group_Rep. unfold counts. intros H.
  destruct (flat_map_head _ _ H) as (pre & x & post & tl' & E & Hx & Hpre).
  destruct (@map_seq_split _ (fun k => capture k st) _ _ _ _ _ E)
    as (-> & Hlen & Hin).
  exists (lo + length pre), tl'. repeat split; try lia; [exact Hx|].
  intros j Hj. rewrite Forall_forall in Hpre. apply Hpre, Hin. lia.
Qed.

(** A greedy group that ends the pattern takes every character it can. *)
Lemma greedy_group_head (fl : flags) (c : cls) (lo : nat)
      (st m : state) (tl : list state) :
  run fl (Group (Rep c lo true)) st = m :: tl ->
  m = capture (span (in_cls fl c) (rest st)) st
  /\ lo <= span (in_cls fl c) (rest st).
Proof.
  rewrite run_Group_Rep. unfold counts.
  set (hi := span (in_cls fl c) (rest st)).
  destruct (le_lt_dec lo hi) as [Hle|Hgt].
  - replace (S hi - lo) with (S (hi - lo)) by lia.
    rewrite seq_S, rev_app_distr. cbn.
    replace (lo + (hi - lo)) with hi by lia.
    intros [= <- _]. now split.
  - replace (S hi - lo) with 0 by lia. discriminate.
Qed.

Lemma run_paragraph_end_nil (st : state) :
  run dotall paragraph_end st = [] <-> paragraph_ends (rest st) = false.
Proof.
  unfold paragraph_end, paragraph_ends. cbn [run]. unfold at_eol.
  cbn [MULTILINE dotall orb].
  destruct (PyStr.startswith [nl; nl] (rest st));
    destruct (PyStr.startswith (nl :: py "#") (rest st));
    destruct (rest st) as [|ch r]; cbn [app orb];
    try destruct (Ascii.eqb ch nl && negb (PyStr.truthy r));
    split; intros H; try discriminate; reflexivity.
Qed.

Lemma run_paragraph_end_group (st m : state) :
  In m (run dotall paragraph_end st) -> group m = group st.
Proof.
  unfold paragraph_end. cbn [run]. intros H.
  apply in_app_or in H as [H | H]; [|apply in_app_or in H as [H | H]].
  - destruct (PyStr.startswith _ _); [|contradiction].
    destruct H as [<- | []]. reflexivity.
  - destruct (PyStr.startswith _ _); [|contradiction].
    destruct H as [<- | []]. reflexivity.
  - destruct (at_eol dotall st); [|contradiction].
    destruct H as [<- | []]. reflexivity.
Qed.

Lemma capture_skip (k : nat) (st : state) :
  rest st = firstn k (rest st) ++ rest (capture k st).
Proof. cbn. now rewrite firstn_skipn. Qed.

(** The text a lazy group captured before a paragraph end: it is not
    empty, a paragraph end follows it, and none lies inside it. *)
Lemma paragraph_block (st m : state) (tl : list state) :
  run dotall (Group (Rep Dot 1 false) >> paragraph_end) st = m :: tl ->
  exists g post,
    group m = Some g /\ rest st = g ++ post /\ g <> []
    /\ paragraph_ends post = true
    /\ forall j, 0 < j < length g ->
                 paragraph_ends (skipn j (g ++ post)) = false.
Proof.
  intros H.
  destruct (@lazy_group_head _ _ _ _ _ _ _ H) as (k & tl' & Hk & Hm & Hmin).
  pose proof (span_le (in_cls dotall Dot) (rest st)) as Hspan.
  exists (firstn k (rest st)), (skipn k (rest st)).
  assert (Hlen : length (firstn k (rest st)) = k) by (rewrite length_firstn; lia).
  repeat split.
  - rewrite (run_paragraph_end_group (capture k st) m).
    + reflexivity.
    + rewrite Hm. now left.
  - now rewrite firstn_skipn.
  - intros E. rewrite E in Hlen. cbn in Hlen. lia.
  - destruct (paragraph_ends (skipn k (rest st))) eqn:E; [reflexivity|].
    apply (run_paragraph_end_nil (capture k st)) in E. congruence.
  - intros j Hj. rewrite firstn_skipn.
    apply (run_paragraph_end_nil (capture j st)). apply Hmin. lia.
Qed.

Ltac peel H st Hin :=
  let tl := fresh "tl" in
  apply run_Cat_head in H as (st & tl & Hin & H).

Ltac literal Hin Hmv :=
  apply run_Lit in Hin as [Hmv _].

Ltac spaces Hin w Hmv Hall Hlen :=
  apply run_Rep in Hin as (w & Hmv & _ & Hall & Hlen);
  change (forallb PyStr.is_space w = true) in Hall.

Lemma moved_content (st st' : state) (w : str) :
  moved st w st' -> subject st = rev (left st) ++ w ++ rest st'.
Proof. unfold subject. now intros [-> _]. Qed.

(** A match of the component description pattern: a [#], white space, the
    name, white space up to and including a line feed, more white space,
    then the captured block up to the nearest paragraph end. *)
Lemma description_shape (n content : str) (m : state) :
  search dotall (description_re n) content = Some m ->
  exists a ws1 ws2 ws3 post,
    content = a ++ py "#" ++ ws1 ++ n ++ ws2 ++ [nl] ++ ws3
                ++ group1 m ++ post
    /\ ws1 <> []
    /\ forallb PyStr.is_space (ws1 ++ ws2 ++ ws3) = true
    /\ group1 m <> []
    /\ paragraph_ends post = true
    /\ forall j, 0 < j < length (group1 m) ->
                 paragraph_ends (skipn j (group1 m ++ post)) = false.
Proof.
  intros H. apply search_head in H as (st0 & tl & Hs & _ & H).
  unfold description_re in H.
  peel H st1 H1. literal H1 M1.
  peel H st2 H2. spaces H2 ws1 M2 A1 L1.
  peel H st3 H3. literal H3 M3.
  peel H st4 H4. spaces H4 ws2 M4 A2 L2.
  peel H st5 H5. literal H5 M5.
  peel H st6 H6. spaces H6 ws3 M6 A3 L3.
  apply paragraph_block in H as (g & post & Hg & Hrest & Hne & Hend & Hmin).
  pose proof (moved_trans M1 (moved_trans M2 (moved_trans M3
                (moved_trans M4 (moved_trans M5 M6))))) as M.
  apply moved_content in M. rewrite Hs, Hrest in M.
  unfold group1. rewrite Hg.
  exists (rev (left st0)), ws1, ws2, ws3, post. repeat split; auto.
  - rewrite M. now rewrite <- !app_assoc.
  - intros ->. cbn in L1. lia.
  - now rewrite !forallb_app, A1, A2, A3.
Qed.

(** A match of the documentation description pattern: the same, with any
    text in place of the name. *)
Lemma doc_description_shape (content : str) (m : state) :
  search dotall doc_description_re content = Some m ->
  exists a ws1 title ws3 post,
    content = a ++ py "#" ++ ws1 ++ title ++ [nl] ++ ws3 ++ group1 m ++ post
    /\ ws1 <> [] /\ title <> []
    /\ forallb PyStr.is_space (ws1 ++ ws3) = true
    /\ group1 m <> []
    /\ paragraph_ends post = true
    /\ forall j, 0 < j < length (group1 m) ->
                 paragraph_ends (skipn j (group1 m ++ post)) = false.
Proof.
  intros H. apply search_head in H as (st0 & tl & Hs & _ & H).
  unfold doc_description_re in H.
  peel H st1 H1. literal H1 M1.
  peel H st2 H2. spaces H2 ws1 M2 A1 L1.
  peel H st3 H3. apply run_Rep in H3 as (title & M3 & _ & _ & L2).
  peel H st4 H4. literal H4 M4.
  peel H st5 H5. spaces H5 ws3 M5 A3 L3.
  apply paragraph_block in H as (g & post & Hg & Hrest & Hne & Hend & Hmin).
  pose proof (moved_trans M1 (moved_trans M2 (moved_trans M3
                (moved_trans M4 M5)))) as M.
  apply moved_content in M. rewrite Hs, Hrest in M.
  unfold group1. rewrite Hg.
  exists (rev (left st0)), ws1, title, ws3, post. repeat split; auto.
  - rewrite M. now rewrite <- !app_assoc.
  - intros ->. cbn in L1. lia.
  - intros ->. cbn in L2. lia.
  - now rewrite forallb_app, A1, A3.
Qed.

Lemma no_newline (fl : flags) (w : str) :
  DOTALL fl = false ->
  forallb (in_cls fl Dot) w = true \/ forallb (in_cls fl NotNewline) w = true ->
  existsb is_newline w = false.
Proof.
  intros Hfl H. induction w as [|c w IH]; [reflexivity|].
  cbn [forallb existsb] in *. unfold in_cls, is_newline in *.
  rewrite Hfl in H. cbn [orb] in H.
  assert (Hc : negb (Ascii.eqb c nl) = true /\
               (forallb (in_cls fl Dot) w = true
                \/ forallb (in_cls fl NotNewline) w = true)).
  { unfold in_cls. rewrite Hfl. cbn [orb].
    destruct H as [H|H]; apply andb_true_iff in H as [Hc Hw]; auto. }
  destruct Hc as [Hc Hw]. apply negb_true_iff in Hc. rewrite Hc.
  now apply IH.
Qed.

(** A match of the heading pattern: a [#] at the start of a line, white
    space, and the captured text up to the end of its line. *)
Lemma heading_shape (content : str) (m : state) :
  search multiline heading_re content = Some m ->
  exists a ws post,
    content = a ++ py "#" ++ ws ++ group1 m ++ post
    /\ (a = [] \/ exists a', a = a' ++ [nl])
    /\ ws <> [] /\ forallb PyStr.is_space ws = true
    /\ group1 m <> []
    /\ existsb is_newline (group1 m) = false
    /\ line_ends post.
Proof.
  intros H. apply search_head in H as (st0 & tl & Hs & _ & H).
  unfold heading_re in H.
  peel H st1 H1. cbn [run] in H1.
  destruct (at_bol multiline st0) eqn:Hbol; [|contradiction].
  destruct H1 as [<- | []].
  peel H st2 H2. literal H2 M2.
  peel H st3 H3. spaces H3 ws M3 A L.
  destruct (@lazy_group_head _ _ _ _ _ _ _ H) as (k & tl' & Hk & Hm & _).
  cbn [run] in Hm.
  destruct (at_eol multiline (capture k st3)) eqn:Heol; [|discriminate].
  injection Hm as <- _.
  destruct (span_firstn _ _ (proj2 Hk)) as [Hall Hlen].
  pose proof (moved_content (moved_trans M2 M3)) as M.
  rewrite Hs, (capture_skip k st3) in M.
  exists (rev (left st0)), ws, (rest (capture k st3)).
  unfold group1. cbn [group capture]. repeat split.
  - rewrite M. now rewrite <- !app_assoc.
  - unfold at_bol in Hbol. destruct (left st0) as [|c l]; [now left|].
    right. exists (rev l). cbn [MULTILINE multiline andb] in Hbol.
    apply Ascii.eqb_eq in Hbol. now subst.
  - intros ->. cbn in L. lia.
  - exact A.
  - intros E. rewrite E in Hlen. cbn in Hlen. lia.
  - apply (@no_newline multiline); [reflexivity | now left].
  - unfold at_eol in Heol. unfold line_ends.
    destruct (rest (capture k st3)) as [|c r]; [now left|].
    right. exists r. cbn [MULTILINE multiline orb andb] in Heol.
    rewrite andb_true_r in Heol. apply Ascii.eqb_eq in Heol. now subst.
Qed.

(** A match of the frontmatter pattern: three dashes, white space up to
    and including a line feed, the captured block, and the first line feed
    followed by three dashes after it. *)
Lemma frontmatter_shape (content : str) (m : state) :
  search dotall frontmatter_re content = Some m ->
  exists a ws post,
    content = a ++ py "---" ++ ws ++ [nl] ++ group1 m ++ nl :: py "---" ++ post
    /\ forallb PyStr.is_space ws = true
    /\ forall j, j < length (group1 m) ->
         PyStr.startswith (nl :: py "---")
           (skipn j (group1 m ++ nl :: py "---" ++ post)) = false.
Proof.
  intros H. apply search_head in H as (st0 & tl & Hs & _ & H).
  unfold frontmatter_re in H.
  peel H st1 H1. literal H1 M1.
  peel H st2 H2. spaces H2 ws M2 A L.
  peel H st3 H3. literal H3 M3.
  destruct (@lazy_group_head _ _ _ _ _ _ _ H) as (k & tl' & Hk & Hm & Hmin).
  assert (Hin : In m (run dotall (Lit (nl :: py "---")) (capture k st3)))
    by (rewrite Hm; now left).
  apply run_Lit in Hin as [[M4 _] Hg].
  pose proof (span_le (in_cls dotall Dot) (rest st3)) as Hspan.
  assert (Hlen : length (firstn k (rest st3)) = k)
    by (rewrite length_firstn; lia).
  pose proof (moved_content (moved_trans M1 (moved_trans M2 M3))) as M.
  rewrite Hs, (capture_skip k st3), M4 in M.
  assert (Hrest : rest st3 = firstn k (rest st3) ++ nl :: py "---" ++ rest m).
  { rewrite (capture_skip k st3) at 1. now rewrite M4. }
  exists (rev (left st0)), ws, (rest m).
  unfold group1. rewrite Hg. cbn [group capture]. repeat split.
  - rewrite M. now rewrite <- !app_assoc.
  - exact A.
  - intros j Hj. rewrite Hlen in Hj.
    change (nl :: py "---" ++ rest m) with ((nl :: py "---") ++ rest m) in Hrest.
    cbn [app] in Hrest. rewrite <- Hrest.
    specialize (Hmin j ltac:(lia)). cbn [run] in Hmin.
    change (rest (capture j st3)) with (skipn j (rest st3)) in Hmin.
    destruct (PyStr.startswith (nl :: py "---") (skipn j (rest st3)));
      [discriminate | reflexivity].
Qed.

(** A match of the components pattern: the key, a line feed within white
    space, a dash, white space, and the captured rest of the line. *)
Lemma components_shape (frontmatter : str) (m : state) :
  search no_flags components_re frontmatter = Some m ->
  exists a ws1 ws2 ws3 post,
    frontmatter = a ++ py "components:" ++ ws1 ++ [nl] ++ ws2 ++ py "-"
                    ++ ws3 ++ group1 m ++ post
    /\ forallb PyStr.is_space (ws1 ++ ws2 ++ ws3) = true
    /\ group1 m <> []
    /\ existsb is_newline (group1 m) = false
    /\ line_ends post.
Proof.
  intros H. apply search_head in H as (st0 & tl & Hs & _ & H).
  unfold components_re in H.
  peel H st1 H1. literal H1 M1.
  peel H st2 H2. spaces H2 ws1 M2 A1 L1.
  peel H st3 H3. literal H3 M3.
  peel H st4 H4. spaces H4 ws2 M4 A2 L2.
  peel H st5 H5. literal H5 M5.
  peel H st6 H6. spaces H6 ws3 M6 A3 L3.
  apply greedy_group_head in H as [-> Hlo].
  set (k := span (in_cls no_flags NotNewline) (rest st6)) in *.
  destruct (span_firstn (in_cls no_flags NotNewline) (rest st6) (le_n k))
    as [Hall Hlen].
  pose proof (moved_trans M1 (moved_trans M2 (moved_trans M3
                (moved_trans M4 (moved_trans M5 M6))))) as M.
  apply moved_content in M. rewrite Hs, (capture_skip k st6) in M.
  exists (rev (left st0)), ws1, ws2, ws3, (rest (capture k st6)).
  unfold group1. cbn [group capture]. repeat split.
  - rewrite M. now rewrite <- !app_assoc.
  - now rewrite !forallb_app, A1, A2, A3.
  - intros E. rewrite E in Hlen. cbn in Hlen. lia.
  - apply (@no_newline no_flags); [reflexivity | now right].
  - pose proof (span_stop (in_cls no_flags NotNewline) (rest st6)) as Hstop.
    fold k in Hstop. change (rest (capture k st6)) with (skipn k (rest st6)).
    unfold line_ends. destruct (skipn k (rest st6)) as [|c r]; [now left|].
    right. exists r. cbn in Hstop. apply negb_false_iff in Hstop.
    apply Ascii.eqb_eq in Hstop. now subst.
Qed.

(** ** One record per readable file *)

Lemma stage_components_records (fs : list (str * option str)) :
  forall acc, exists added,
    stage_components acc fs = acc ++ added
    /\ Forall2 component_of added (readable fs).
Proof.
  induction fs as [|[p [text|]] fs IH]; intros acc; cbn [stage_components].
  - exists []. split; [now rewrite app_nil_r | constructor].
  - destruct (IH (acc ++ [staged_component (map Component.name acc) p text]))
      as (added & E & H).
    exists (staged_component (map Component.name acc) p text :: added).
    split; [now rewrite E, <- app_assoc|].
    unfold readable. cbn [flat_map snd fst app]. constructor; [|exact H].
    unfold component_of, staged_component. cbn.
    repeat split.
    destruct (tuple_in _ _); [now right | now left].
  - exact (IH acc).
Qed.

Lemma stage_doc_sections_records (fs : list (str * option str)) :
  forall acc, exists added,
    stage_doc_sections acc fs = acc ++ added
    /\ Forall2 doc_section_of added (readable fs).
Proof.
  induction fs as [|[p [text|]] fs IH]; intros acc; cbn [stage_doc_sections].
  - exists []. split; [now rewrite app_nil_r | constructor].
  - destruct (IH (acc ++ [staged_doc_section (map DocSection.name acc) p text]))
      as (added & E & H).
    exists (staged_doc_section (map DocSection.name acc) p text :: added).
    split; [now rewrite E, <- app_assoc|].
    unfold readable. cbn [flat_map snd fst app]. constructor; [|exact H].
    unfold doc_section_of, staged_doc_section. cbn.
    repeat split.
    destruct (tuple_in _ _); [now right | now left].
  - exact (IH acc).
Qed.

(** Every path the builder extracts from has a final component. *)
Lemma markdown_files_named (skip : str -> bool) (top : str) (t : tree)
      (p : str) (text : option str) :
  In (p, text) (markdown_files skip top t) -> PurePath.name p <> [].
Proof.
  unfold markdown_files. intros H. apply in_flat_map in H as (rf & _ & H).
  destruct (skip (fst rf)); [contradiction|].
  apply in_map_iff in H as (f & [= <- _] & Hf).
  apply filter_In in Hf as [_ Hmd]. unfold is_markdown in Hmd.
  destruct (endswith_app _ _ Hmd) as [q Hq].
  assert (Hend : PyStr.endswith (py ".md") (OsPath.join (fst rf) (fst f)) = true).
  { unfold OsPath.join. rewrite Hq.
    destruct (PyStr.startswith (py "/") (q ++ py ".md"));
      [apply endswith_suffix|].
    destruct (negb (PyStr.truthy (fst rf)) || PyStr.endswith (py "/") (fst rf)).
    - rewrite app_assoc. apply endswith_suffix.
    - rewrite !app_assoc. apply endswith_suffix. }
  destruct (markdown_path_name _ Hend) as [w ->]. now destruct w.
Qed.

Lemma join_keeps_markdown (root file : str) :
  PyStr.endswith (py ".md") file = true ->
  PyStr.endswith (py ".md") (OsPath.join root file) = true.
Proof.
  intros Hmd. destruct (endswith_app _ _ Hmd) as [q ->].
  unfold OsPath.join.
  destruct (PyStr.startswith (py "/") (q ++ py ".md"));
    [apply endswith_suffix|].
  destruct (negb (PyStr.truthy root) || PyStr.endswith (py "/") root).
  - rewrite app_assoc. apply endswith_suffix.
  - rewrite !app_assoc. apply endswith_suffix.
Qed.

Lemma markdown_path_named (p : str) :
  PyStr.endswith (py ".md") p = true -> PurePath.name p <> [].
Proof.
  intros H. destruct (markdown_path_name _ H) as [w ->]. now destruct w.
Qed.

(** * Specification properties *)

(** C1: after every completed build no catalog holds two records with the
    same name.  A rebuild completes whenever the staged names of each
    catalog are pairwise different, and a completed build stores exactly
    the staged records: one per readable markdown file, in discovery
    order, each with the path and text of its file and named by its
    drafted name or, when that name is already taken in this build, by the
    drafted name, an underscore and the classification, appended once.
    Two component files that both resolve to "Button", in categories
    "Forms" then "Inputs", give the names "Button" and "Button_Inputs";
    two documentation files that draft one name give that name and the
    name suffixed with the second file's section. *)
Theorem C1_names_unique_after_completed_build :
  forall docs db,
    (NoDup (component_names (staged docs)) ->
     NoDup (doc_section_names (staged docs)) ->
     populate_database docs db = (Ok tt, staged docs))
    /\ (forall db',
          populate_database docs db = (Ok tt, db') ->
          NoDup (component_names db') /\ NoDup (doc_section_names db')
          /\ components db' = stage_components [] (library_files docs)
          /\ doc_sections db' = stage_doc_sections [] (doc_files docs)
          /\ Forall2 component_of (components db')
                     (readable (library_files docs))
          /\ Forall2 doc_section_of (doc_sections db')
                     (readable (doc_files docs))
          /\ (forall p1 t1 p2 t2,
                library_files docs = [(p1, Some t1); (p2, Some t2)] ->
                fst (extract_component_info t1 p1) = py "Button" ->
                fst (extract_component_info t2 p2) = py "Button" ->
                get_category_from_path p1 = py "Forms" ->
                get_category_from_path p2 = py "Inputs" ->
                component_names db' = [py "Button"; py "Button_Inputs"])
          /\ (forall p1 t1 p2 t2,
                doc_files docs = [(p1, Some t1); (p2, Some t2)] ->
                doc_name t2 p2 = doc_name t1 p1 ->
                doc_section_names db'
                = [doc_name t1 p1;
                   suffixed (doc_name t1 p1) (get_section_from_path p2)])).
Proof.
  intros docs db. split.
  { intros Hc Hd. rewrite populate_database_eq.
    apply distinct_NoDup in Hc, Hd.
    unfold component_names in Hc. unfold doc_section_names in Hd.
    unfold distinct_names. now rewrite Hc, Hd. }
  intros db' H. rewrite populate_database_eq in H.
  destruct (distinct_names _ _) eqn:Hd; [|discriminate].
  injection H as <-. unfold distinct_names in Hd.
  apply andb_true_iff in Hd as [Hc Hs]. apply distinct_NoDup in Hc, Hs.
  split; [exact Hc|]. split; [exact Hs|].
  split; [reflexivity|]. split; [reflexivity|].
  split; [|split; [|split]].
  { destruct (stage_components_records (library_files docs) [])
      as (added & E & H). unfold staged. cbn [components]. now rewrite E. }
  { destruct (stage_doc_sections_records (doc_files docs) [])
      as (added & E & H). unfold staged. cbn [doc_sections]. now rewrite E. }
  { intros p1 t1 p2 t2 Hfiles Hn1 Hn2 Hc1 Hc2.
    unfold component_names, staged. cbn [components]. rewrite Hfiles.
    cbn [stage_components app map]. unfold staged_component.
    cbn [Component.name map]. rewrite Hn1, Hn2, Hc2. reflexivity. }
  intros p1 t1 p2 t2 Hfiles Hn.
  unfold doc_section_names, staged. cbn [doc_sections]. rewrite Hfiles.
  cbn [stage_doc_sections app map]. unfold staged_doc_section.
  cbn [DocSection.name map tuple_in]. rewrite Hn, eqb_refl. reflexivity.
Qed.

Lemma C1_witness :
  populate_database two_of_each old_catalog = (Ok tt, staged two_of_each)
  /\ NoDup (component_names (staged two_of_each))
  /\ NoDup (doc_section_names (staged two_of_each))
  /\ component_names (staged two_of_each) = [py "Button"; py "Button_Inputs"]
  /\ doc_section_names (staged two_of_each) = [py "Intro"; py "Intro_Api"].
Proof.
  destruct (C1_names_unique_after_completed_build two_of_each old_catalog)
    as [Hrun Hdone].
  assert (H : populate_database two_of_each old_catalog
              = (Ok tt, staged two_of_each)).
  { apply Hrun; apply distinct_NoDup; vm_compute; reflexivity. }
  destruct (Hdone _ H) as (Hc & Hd & _ & _ & _ & _ & Hbutton & Hintro).
  split; [exact H|]. split; [exact Hc|]. split; [exact Hd|]. split.
  - apply (Hbutton (py "reflex_docs/library/forms/button.md") button_doc
                   (py "reflex_docs/library/inputs/button.md") button_doc);
      vm_compute; reflexivity.
  - rewrite (Hintro (py "reflex_docs/guides/intro.md") intro_doc
                    (py "reflex_docs/api/intro.md") intro_doc);
      vm_compute; reflexivity.
Defined.

(** C2, as stated, fails for the DocSection catalog: [guide_doc] has a
    frontmatter [components:] list whose first item is "rx.button", and
    the record stored for it in the DocSection catalog is named after its
    heading. *)
Lemma C2_counterexample :
  frontmatter_name guide_doc = Some (py "rx.button")
  /\ doc_name guide_doc (py "reflex_docs/guide.md") = py "Button Guide"
  /\ doc_section_names (snd (populate_database guide_tree empty_db))
     = [py "Button Guide"].
Proof. vm_compute. repeat split. Qed.

(** C2, amended: when the frontmatter pattern matches a document and the
    components pattern matches inside the captured block with a value that
    does not trim to the empty string, the name extracted for the Component
    catalog is that value, trimmed, whatever headings the document has.
    The block lies between a line of three dashes and the first following
    line feed and three dashes; the value is the rest of the line after
    the first dash that follows the [components:] key.  The name stored
    in the DocSection catalog never consults the frontmatter: it is the
    first heading, or the file stem. *)
Theorem C2_frontmatter_name_for_components :
  forall content file_path fm cm,
    search dotall frontmatter_re content = Some fm ->
    search no_flags components_re (group1 fm) = Some cm ->
    PyStr.strip (group1 cm) <> [] ->
    fst (extract_component_info content file_path) = PyStr.strip (group1 cm)
    /\ (exists a ws post,
          content = a ++ py "---" ++ ws ++ [nl] ++ group1 fm
                      ++ nl :: py "---" ++ post
          /\ forallb PyStr.is_space ws = true)
    /\ (exists a ws1 ws2 ws3 post,
          group1 fm = a ++ py "components:" ++ ws1 ++ [nl] ++ ws2 ++ py "-"
                        ++ ws3 ++ group1 cm ++ post
          /\ forallb PyStr.is_space (ws1 ++ ws2 ++ ws3) = true
          /\ existsb is_newline (group1 cm) = false
          /\ line_ends post)
    /\ doc_name content file_path
       = match search multiline heading_re content with
         | Some title_match => PyStr.strip (group1 title_match)
         | None =>
             PyStr.title (PyStr.replace "-" " "
                            (PyStr.replace "_" " " (PurePath.stem file_path)))
         end.
Proof.
  intros content file_path fm cm Hfm Hcm Hne.
  split; [|split; [|split; [|reflexivity]]].
  - rewrite extract_name. unfold resolved_name, frontmatter_name.
    rewrite Hfm, Hcm. cbn [is_set].
    apply truthy_nonempty in Hne. rewrite Hne. cbn [negb is_set].
    now rewrite Hne.
  - destruct (frontmatter_shape _ Hfm) as (a & ws & post & E & A & _).
    now exists a, ws, post.
  - destruct (components_shape _ Hcm)
      as (a & ws1 & ws2 & ws3 & post & E & A & _ & Hnl & Hend).
    now exists a, ws1, ws2, ws3, post.
Qed.

Lemma C2_witness :
  fst (extract_component_info guide_doc (py "reflex_docs/library/forms/button.md"))
  = py "rx.button".
Proof.
  destruct (search dotall frontmatter_re guide_doc) as [fm|] eqn:Hfm;
    [|vm_compute in Hfm; discriminate].
  destruct (search no_flags components_re (group1 fm)) as [cm|] eqn:Hcm;
    [|vm_compute in Hfm; injection Hfm as <-; vm_compute in Hcm; discriminate].
  assert (Hv : PyStr.strip (group1 cm) = py "rx.button").
  { vm_compute in Hfm. injection Hfm as <-.
    vm_compute in Hcm. injection Hcm as <-. vm_compute. reflexivity. }
  assert (Hne : PyStr.strip (group1 cm) <> []) by (rewrite Hv; discriminate).
  destruct (C2_frontmatter_name_for_components guide_doc
              (py "reflex_docs/library/forms/button.md") Hfm Hcm Hne) as [H _].
  rewrite H. exact Hv.
Defined.

(** C3: when the parts of a path hold "library", the category is the part
    after its first occurrence, with underscores and hyphens turned into
    spaces and title-cased, and "Other" when "library" is the last part;
    the section is derived the same way from the part after
    "reflex_docs".  So a file in [reflex_docs/library/<cat>] has the
    category of [<cat>], and a file in [reflex_docs/<section>] the section
    of [<section>]. *)
Theorem C3_classification_from_path :
  forall file_path before next after file,
    (~ In (py "library") before ->
     PurePath.parts file_path = before ++ py "library" :: next :: after ->
     get_category_from_path file_path
     = PyStr.title (PyStr.replace "-" " " (PyStr.replace "_" " " next)))
    /\ (~ In (py "library") before ->
        PurePath.parts file_path = before ++ [py "library"] ->
        get_category_from_path file_path = py "Other")
    /\ (~ In (py "reflex_docs") before ->
        PurePath.parts file_path = before ++ py "reflex_docs" :: next :: after ->
        get_section_from_path file_path
        = PyStr.title (PyStr.replace "-" " " (PyStr.replace "_" " " next)))
    /\ (~ In (py "reflex_docs") before ->
        PurePath.parts file_path = before ++ [py "reflex_docs"] ->
        get_section_from_path file_path = py "Other")
    /\ (valid_name next = true -> valid_name file = true ->
        get_category_from_path
          (OsPath.join (OsPath.join (OsPath.join docs_path (py "library")) next)
                       file)
        = PyStr.title (PyStr.replace "-" " " (PyStr.replace "_" " " next)))
    /\ (valid_name next = true -> valid_name file = true ->
        get_section_from_path (OsPath.join (OsPath.join docs_path next) file)
        = PyStr.title (PyStr.replace "-" " " (PyStr.replace "_" " " next))).
Proof.
  intros file_path before next after file.
  rewrite !get_category_classification, !get_section_classification.
  split; [|split; [|split; [|split; [|split]]]].
  - intros Hn ->. now apply classification_next.
  - intros Hn ->. now apply classification_last.
  - intros Hn ->. now apply classification_next.
  - intros Hn ->. now apply classification_last.
  - intros Hnext Hfile.
    assert (Hrel : relative (OsPath.join (OsPath.join docs_path (py "library"))
                                         next) = true)
      by (apply relative_join; [reflexivity | assumption]).
    rewrite (parts_join _ _ Hrel Hfile).
    rewrite parts_join by (reflexivity || assumption).
    change (PurePath.parts (OsPath.join docs_path (py "library")))
      with [py "reflex_docs"; py "library"].
    change (([py "reflex_docs"; py "library"] ++ [next]) ++ [file])
      with ([py "reflex_docs"] ++ py "library" :: next :: [file]).
    apply classification_next. intros [H | []]. discriminate.
  - intros Hnext Hfile.
    assert (Hrel : relative (OsPath.join docs_path next) = true)
      by (apply relative_join; [reflexivity | assumption]).
    rewrite (parts_join _ _ Hrel Hfile).
    rewrite parts_join by (reflexivity || assumption).
    change (PurePath.parts docs_path) with [py "reflex_docs"].
    change (([py "reflex_docs"] ++ [next]) ++ [file])
      with ([] ++ py "reflex_docs" :: next :: [file]).
    apply classification_next. intros [].
Qed.

Lemma C3_witness :
  get_category_from_path (py "reflex_docs/library/data-display/icon_button.md")
  = py "Data Display"
  /\ get_category_from_path (py "reflex_docs/library") = py "Other"
  /\ get_section_from_path (py "reflex_docs/getting_started/intro.md")
     = py "Getting Started"
  /\ get_section_from_path (py "reflex_docs") = py "Other".
Proof.
  assert (N1 : ~ In (py "library") [py "reflex_docs"])
    by (intros [H | []]; discriminate).
  assert (N2 : ~ In (py "reflex_docs") []) by (intros []).
  split; [|split; [|split]].
  - apply (proj1 (C3_classification_from_path
                    (py "reflex_docs/library/data-display/icon_button.md")
                    [py "reflex_docs"] (py "data-display")
                    [py "icon_button.md"] []) N1).
    vm_compute. reflexivity.
  - apply (proj1 (proj2 (C3_classification_from_path
                    (py "reflex_docs/library") [py "reflex_docs"] [] [] [])) N1).
    vm_compute. reflexivity.
  - apply (proj1 (proj2 (proj2 (C3_classification_from_path
                    (py "reflex_docs/getting_started/intro.md")
                    [] (py "getting_started") [py "intro.md"] []))) N2).
    vm_compute. reflexivity.
  - apply (proj1 (proj2 (proj2 (proj2 (C3_classification_from_path
                    (py "reflex_docs") [] [] [] [])))) N2).
    vm_compute. reflexivity.
Defined.




(** C5, as stated, fails twice.  A description is also extracted when the
    name came from the frontmatter: [described_doc] is named "rx.button"
    by its frontmatter and gets the paragraph below the heading that
    carries that name.  Outside the component path the description is not
    tied to the first level-1 heading: [setup_doc] is named "Title" and is
    described by the paragraph under its level-2 heading. *)
Lemma C5_counterexample :
  frontmatter_name described_doc = Some (py "rx.button")
  /\ snd (extract_component_info described_doc (py "reflex_docs/library/forms/button.md"))
     = py "A clickable button."
  /\ doc_name setup_doc (py "reflex_docs/setup.md") = py "Title"
  /\ doc_description setup_doc = py "run it".
Proof. vm_compute. repeat split. Qed.

(** C5, amended: a component description is extracted exactly when a name
    was resolved from the frontmatter or from a heading, and is empty when
    the name came from the file name.  It is the trimmed text captured by
    the first match of the description pattern: the block that follows a
    [#], white space, the name and the rest of white space to the next
    line, and that runs to the nearest blank line, line starting with [#],
    or end of the text; it is empty when the pattern does not match.  The
    description of a document outside the component path is captured the
    same way after the first [#] followed by white space, some text and a
    line feed, whatever the heading level and the name. *)
Theorem C5_description_resolution :
  forall content file_path,
    (is_set (resolved_name content) = false ->
     snd (extract_component_info content file_path) = [])
    /\ (forall n,
          resolved_name content = Some n -> n <> [] ->
          (search dotall (description_re n) content = None ->
           snd (extract_component_info content file_path) = [])
          /\ forall m,
               search dotall (description_re n) content = Some m ->
               snd (extract_component_info content file_path)
               = PyStr.strip (group1 m)
               /\ exists a ws1 ws2 ws3 post,
                    content = a ++ py "#" ++ ws1 ++ n ++ ws2 ++ [nl] ++ ws3
                                ++ group1 m ++ post
                    /\ ws1 <> []
                    /\ forallb PyStr.is_space (ws1 ++ ws2 ++ ws3) = true
                    /\ group1 m <> []
                    /\ paragraph_ends post = true
                    /\ forall j, 0 < j < length (group1 m) ->
                         paragraph_ends (skipn j (group1 m ++ post)) = false)
    /\ (search dotall doc_description_re content = None ->
        doc_description content = [])
    /\ (forall m,
          search dotall doc_description_re content = Some m ->
          doc_description content = PyStr.strip (group1 m)
          /\ exists a ws1 title ws3 post,
               content = a ++ py "#" ++ ws1 ++ title ++ [nl] ++ ws3
                           ++ group1 m ++ post
               /\ ws1 <> [] /\ title <> []
               /\ forallb PyStr.is_space (ws1 ++ ws3) = true
               /\ group1 m <> []
               /\ paragraph_ends post = true
               /\ forall j, 0 < j < length (group1 m) ->
                    paragraph_ends (skipn j (group1 m ++ post)) = false).
Proof.
  intros content file_path. split; [|split; [|split]].
  - intros H. rewrite extract_description.
    destruct (resolved_name content) as [n|]; [|reflexivity].
    cbn [is_set] in H. now rewrite H.
  - intros n Hn Hne. apply truthy_nonempty in Hne. split.
    + intros Hs. rewrite extract_description, Hn, Hne, Hs. reflexivity.
    + intros m Hs. split.
      * rewrite extract_description, Hn, Hne, Hs. reflexivity.
      * exact (description_shape _ _ Hs).
  - intros Hs. unfold doc_description. now rewrite Hs.
  - intros m Hs. split.
    + unfold doc_description. now rewrite Hs.
    + exact (doc_description_shape _ Hs).
Qed.

Lemma C5_witness :
  snd (extract_component_info button_doc (py "reflex_docs/library/forms/b.md"))
  = py "A button."
  /\ snd (extract_component_info plain_doc (py "reflex_docs/library/forms/b.md"))
     = [].
Proof.
  split.
  - assert (Hn : resolved_name button_doc = Some (py "Button"))
      by (vm_compute; reflexivity).
    assert (Hne : py "Button" <> []) by discriminate.
    destruct (search dotall (description_re (py "Button")) button_doc)
      as [m|] eqn:Hm; [|vm_compute in Hm; discriminate].
    destruct (proj1 (proj2 (C5_description_resolution button_doc
                (py "reflex_docs/library/forms/b.md"))) _ Hn Hne) as [_ H].
    destruct (H m Hm) as [-> _].
    vm_compute in Hm. injection Hm as <-. vm_compute. reflexivity.
  - apply (proj1 (C5_description_resolution plain_doc
                    (py "reflex_docs/library/forms/b.md"))).
    vm_compute. reflexivity.
Defined.

(** C6, as stated, fails: the third file of [three_buttons] is renamed to
    a name the second already took, the final commit raises on the unique
    index, and the rows the catalog held before the rebuild are gone. *)
Lemma C6_counterexample :
  populate_database three_buttons old_catalog = (Raised, empty_db)
  /\ old_catalog <> empty_db.
Proof. split; [vm_compute; reflexivity | discriminate]. Qed.

(** C6, amended: the rebuild uses two transactions.  The deletion of all
    rows is committed on its own before any file is read, and the inserts
    are committed together at the end.  A rebuild that raises after the
    clearing stores none of the new records and leaves both catalogs
    empty; the rows held before are not restored. *)
Theorem C6_failed_rebuild_leaves_empty_catalogs :
  forall docs db db',
    populate_database docs db = (Raised, db') ->
    db' = empty_db
    /\ exists s,
         clear_existing (open_session db) = (Ok tt, s)
         /\ committed s = empty_db.
Proof.
  intros docs db db' H. rewrite populate_database_eq in H.
  destruct (distinct_names _ _); [discriminate|].
  injection H as <-. split; [reflexivity|].
  exists cleared. split; [apply clear_existing_run | reflexivity].
Qed.

Lemma C6_witness :
  snd (populate_database three_buttons old_catalog) = empty_db.
Proof.
  assert (H : populate_database three_buttons old_catalog
              = (Raised, snd (populate_database three_buttons old_catalog)))
    by (vm_compute; reflexivity).
  exact (proj1 (C6_failed_rebuild_leaves_empty_catalogs _ _ H)).
Defined.

(** C7 at a tree with a directory [library_extras] next to [library]: the
    walk finds the markdown file [library_extras/notes.md] outside the
    library sub-tree, and the completed rebuild stores it in neither
    catalog, because the path of its directory contains "library". *)
Theorem C7_directory_with_library_in_its_name_is_skipped :
  In (py "reflex_docs/library_extras/notes.md", Some notes_doc)
     (markdown_files (fun _ => false) docs_path extras_tree)
  /\ ~ In (py "reflex_docs/library_extras/notes.md", Some notes_doc)
          (library_files extras_tree)
  /\ exists db,
       populate_database extras_tree empty_db = (Ok tt, db)
       /\ component_names db = [py "Button"]
       /\ doc_sections db = [].
Proof.
  split; [|split].
  - vm_compute. right. left. reflexivity.
  - vm_compute. intros [H | []]. discriminate.
  - eexists. split; [vm_compute; reflexivity|]. split; reflexivity.
Qed.

(** C8: a second rebuild over the same tree, files discovered in the same
    order, ends like the first and leaves the catalogs with the same
    records: names, classifications, descriptions, paths and contents,
    renamed names included.  The result does not depend on the rows the
    database held before. *)
Theorem C8_rebuild_idempotent :
  forall docs db,
    populate_database docs (snd (populate_database docs db))
    = populate_database docs db
    /\ forall db', populate_database docs db' = populate_database docs db.
Proof.
  intros docs db. split; [|intros db']; now rewrite !populate_database_eq.
Qed.

(** With no heading, no frontmatter and a path without a final component,
    which the builder never passes, there is no name to fall back on. *)
Lemma extract_without_file_name :
  extract_component_info plain_doc [] = ([], []).
Proof. vm_compute. reflexivity. Qed.

(** C9: extraction returns a name and a description for every content,
    and the name is not empty for every file path the builder passes: a
    path joined from a directory and a file name ending in [.md], as every
    path of the component walk is, and more generally every path whose
    final component is not empty.  The name is the frontmatter value, else
    the first heading, when that text does not trim to the empty string,
    and the file-name fallback otherwise. *)
Theorem C9_name_never_empty :
  forall content,
    (forall root file,
       PyStr.endswith (py ".md") file = true ->
       fst (extract_component_info content (OsPath.join root file)) <> [])
    /\ (forall docs p text,
          In (p, text) (library_files docs) ->
          fst (extract_component_info content p) <> [])
    /\ (forall file_path,
          PurePath.name file_path <> [] ->
          fst (extract_component_info content file_path) <> []
          /\ fst (extract_component_info content file_path)
             = (if is_set (resolved_name content)
                then match resolved_name content with
                     | Some n => n
                     | None => []
                     end
                else PyStr.title (PyStr.replace "_" " "
                                    (PurePath.stem file_path)))).
Proof.
  intros content.
  assert (Hname : forall file_path,
             PurePath.name file_path <> [] ->
             fst (extract_component_info content file_path) <> []).
  { intros file_path Hn. rewrite extract_name.
    destruct (resolved_name content) as [n|]; cbn [is_set].
    - destruct (PyStr.truthy n) eqn:E.
      + now apply truthy_nonempty.
      + now apply stem_name_nonempty.
    - now apply stem_name_nonempty. }
  split; [|split].
  - intros root file Hmd. apply Hname, markdown_path_named.
    now apply join_keeps_markdown.
  - intros docs p text Hin. apply Hname.
    destruct docs as [files dirs]. unfold library_files in Hin.
    destruct (subdir (py "library") dirs); [|contradiction].
    exact (markdown_files_named _ _ _ _ _ Hin).
  - intros file_path Hn. split; [now apply Hname | apply extract_name].
Qed.

Lemma C9_witness :
  fst (extract_component_info plain_doc
         (OsPath.join (py "reflex_docs/library") (py "icon_button.md")))
  <> []
  /\ fst (extract_component_info (py "#  ") (py "reflex_docs/library/a.md"))
     <> [].
Proof.
  split.
  - apply (proj1 (C9_name_never_empty plain_doc)). vm_compute. reflexivity.
  - apply (proj2 (proj2 (C9_name_never_empty (py "#  ")))
             (py "reflex_docs/library/a.md")).
    vm_compute. discriminate.
Defined.

(** C10: a markdown file directly in the library directory is classified
    by its own file name, extension included: [icon_button.md] gives
    "Icon Button.Md".  For every file the component walk processes the
    path holds "library" with a part after it, so the "Other" fallback of
    [get_category_from_path] is never taken there. *)
Theorem C10_file_name_as_category :
  get_category_from_path (py "reflex_docs/library/icon_button.md")
  = py "Icon Button.Md"
  /\ (forall file,
        valid_name file = true ->
        get_category_from_path
          (OsPath.join (OsPath.join docs_path (py "library")) file)
        = PyStr.title (PyStr.replace "-" " " (PyStr.replace "_" " " file)))
  /\ (forall docs p text,
        wf_tree docs = true ->
        In (p, text) (library_files docs) ->
        let path_parts := PurePath.parts p in
        tuple_in (py "library") path_parts = true
        /\ tuple_index (py "library") path_parts + 1 < length path_parts
        /\ get_category_from_path p = normalize_segment (nth 2 path_parts [])).
Proof.
  split; [vm_compute; reflexivity|]. split.
  - intros file Hf. rewrite get_category_classification.
    rewrite parts_join by (reflexivity || assumption).
    change (PurePath.parts (OsPath.join docs_path (py "library")))
      with [py "reflex_docs"; py "library"].
    change ([py "reflex_docs"; py "library"] ++ [file])
      with ([py "reflex_docs"] ++ py "library" :: file :: []).
    apply classification_next. intros [H | []]. discriminate.
  - intros docs p text Hwf Hin.
    destruct (library_file_parts _ _ _ Hwf Hin) as (below & file & Hparts).
    cbn zeta. rewrite get_category_classification, Hparts.
    assert (Hnext : exists next after, below ++ [file] = next :: after).
    { destruct below as [|b below]; [now exists file, [] |].
      now exists b, (below ++ [file]). }
    destruct Hnext as (next & after & ->).
    split; [reflexivity|]. split; [cbn; lia|].
    change (py "reflex_docs" :: py "library" :: next :: after)
      with ([py "reflex_docs"] ++ py "library" :: next :: after).
    rewrite classification_next; [reflexivity|].
    intros [H | []]. discriminate.
Qed.

Lemma C10_witness :
  get_category_from_path
    (OsPath.join (OsPath.join docs_path (py "library")) (py "data_table.md"))
  = py "Data Table.Md"
  /\ tuple_in (py "library")
       (PurePath.parts (py "reflex_docs/library/forms/button.md")) = true.
Proof.
  split.
  - rewrite (proj1 (proj2 C10_file_name_as_category) (py "data_table.md"));
      vm_compute; reflexivity.
  - assert (Hwf : wf_tree two_buttons = true) by (vm_compute; reflexivity).
    assert (Hin : In (py "reflex_docs/library/forms/button.md", Some button_doc)
                     (library_files two_buttons))
      by (vm_compute; left; reflexivity).
    exact (proj1 (proj2 (proj2 C10_file_name_as_category) _ _ _ Hwf Hin)).
Defined.

(** * Further properties *)

(** ** Classifications *)

Lemma title_char_keeps (x : ascii) (b : bool) (c : ascii) :
  PyStr.is_cased x = false ->
  Ascii.eqb x (if b then PyStr.to_lower c else PyStr.to_upper c) = Ascii.eqb x c.
Proof.
  intros Hx.
  assert (Hl : PyStr.is_cased (PyStr.to_lower c) = PyStr.is_cased c
               /\ PyStr.is_cased (PyStr.to_upper c) = PyStr.is_cased c
               /\ (PyStr.is_cased c = false ->
                   PyStr.to_lower c = c /\ PyStr.to_upper c = c)).
  { destruct c as [[] [] [] [] [] [] [] []]; vm_compute;
      repeat split; try reflexivity; discriminate. }
  destruct Hl as (Hlow & Hup & Hsame).
  destruct (PyStr.is_cased c) eqn:Hc.
  - assert (Hne : forall y, PyStr.is_cased y = true -> Ascii.eqb x y = false).
    { intros y Hy. destruct (Ascii.eqb x y) eqn:E; [|reflexivity].
      apply Ascii.eqb_eq in E. subst. congruence. }
    rewrite (Hne c Hc). destruct b; apply Hne; congruence.
  - destruct (Hsame eq_refl) as [-> ->]. now destruct b.
Qed.

Lemma title_from_keeps (x : ascii) (b : bool) (s : str) :
  PyStr.is_cased x = false ->
  existsb (Ascii.eqb x) (PyStr.title_from b s) = existsb (Ascii.eqb x) s.
Proof.
  intros Hx. revert b; induction s as [|c s IH]; intros b; [reflexivity|].
  cbn [PyStr.title_from existsb]. now rewrite title_char_keeps, IH.
Qed.

Lemma normalize_segment_clean (s : str) :
  existsb (Ascii.eqb "_") (normalize_segment s) = false
  /\ existsb (Ascii.eqb "-") (normalize_segment s) = false.
Proof.
  unfold normalize_segment, PyStr.title.
  rewrite !title_from_keeps by reflexivity.
  unfold PyStr.replace. rewrite map_map.
  split; induction s as [|c s IH]; try reflexivity;
    cbn [map existsb]; rewrite IH, orb_false_r;
    destruct (Ascii.eqb c "_") eqn:E1; try reflexivity;
    destruct (Ascii.eqb c "-") eqn:E2; try reflexivity.
  - now rewrite Ascii.eqb_sym.
  - now rewrite Ascii.eqb_sym.
Qed.

Lemma normalize_segment_length (s : str) :
  length (normalize_segment s) = length s.
Proof.
  unfold normalize_segment, PyStr.title, PyStr.replace.
  now rewrite title_from_length, !length_map.
Qed.

Lemma parts_nonempty (p x : str) : In x (PurePath.parts p) -> x <> [].
Proof.
  unfold PurePath.parts. intros H. apply in_app_or in H as [H | H].
  - destruct (PyStr.truthy (PurePath.root p)) eqn:E; [|contradiction].
    destruct H as [<- | []]. now apply truthy_nonempty.
  - unfold PurePath.tail in H. apply filter_In in H as [_ H].
    apply andb_true_iff in H as [H _]. now apply truthy_nonempty.
Qed.

Lemma classification_clean (marker : str) (path_parts : list str) :
  (forall x, In x path_parts -> x <> []) ->
  classification marker path_parts <> []
  /\ existsb (Ascii.eqb "_") (classification marker path_parts) = false
  /\ existsb (Ascii.eqb "-") (classification marker path_parts) = false.
Proof.
  intros Hne. unfold classification.
  destruct (tuple_in marker path_parts); [|repeat split; discriminate].
  destruct (tuple_index marker path_parts + 1 <? length path_parts) eqn:E;
    [|repeat split; discriminate].
  apply Nat.ltb_lt in E.
  split; [|apply normalize_segment_clean].
  intros Hn. apply (f_equal (@length _)) in Hn.
  rewrite normalize_segment_length in Hn. apply length_zero_iff_nil in Hn.
  exact (Hne _ (nth_In _ _ E) Hn).
Qed.

(** X1: whatever the path, the category and the section derived from it
    are not empty and hold neither an underscore nor a hyphen. *)
Theorem X1_classification_never_empty :
  forall file_path,
    (get_category_from_path file_path <> []
     /\ existsb (Ascii.eqb "_") (get_category_from_path file_path) = false
     /\ existsb (Ascii.eqb "-") (get_category_from_path file_path) = false)
    /\ (get_section_from_path file_path <> []
        /\ existsb (Ascii.eqb "_") (get_section_from_path file_path) = false
        /\ existsb (Ascii.eqb "-") (get_section_from_path file_path) = false).
Proof.
  intros file_path.
  rewrite get_category_classification, get_section_classification.
  split; apply classification_clean; intros x; apply parts_nonempty.
Qed.

(** ** When a rebuild completes *)

Lemma distinct_staged_completes (docs : tree) (db : database) :
  NoDup (component_names (staged docs)) ->
  NoDup (doc_section_names (staged docs)) ->
  populate_database docs db = (Ok tt, staged docs).
Proof.
  intros Hc Hd. rewrite populate_database_eq.
  unfold distinct_names. apply distinct_NoDup in Hc, Hd.
  unfold component_names in Hc. unfold doc_section_names in Hd.
  now rewrite Hc, Hd.
Qed.

(** X2: when the names staged for each catalog are pairwise different,
    the rebuild completes and the database then holds exactly the staged
    records, whatever it held before. *)
Theorem X2_rebuild_completes :
  forall docs db,
    NoDup (component_names (staged docs)) ->
    NoDup (doc_section_names (staged docs)) ->
    populate_database docs db = (Ok tt, staged docs).
Proof.
  intros docs db Hc Hd. rewrite populate_database_eq.
  apply distinct_NoDup in Hc, Hd.
  unfold component_names in Hc. unfold doc_section_names in Hd.
  unfold distinct_names. rewrite Hc, Hd. reflexivity.
Qed.

Lemma X2_witness :
  populate_database two_buttons old_catalog = (Ok tt, staged two_buttons).
Proof.
  apply X2_rebuild_completes; apply distinct_NoDup; vm_compute; reflexivity.
Defined.

Lemma readable_app (fs gs : list (str * option str)) :
  readable (fs ++ gs) = readable fs ++ readable gs.
Proof. unfold readable. apply flat_map_app. Qed.

Lemma stage_components_drafts (fs : list (str * option str)) :
  forall acc,
    NoDup (map Component.name acc ++ map component_draft (readable fs)) ->
    map Component.name (stage_components acc fs)
    = map Component.name acc ++ map component_draft (readable fs).
Proof.
  induction fs as [|[p [text|]] fs IH]; intros acc Hnd; cbn [stage_components].
  - cbn. now rewrite app_nil_r.
  - change (readable ((p, Some text) :: fs)) with ((p, text) :: readable fs) in *.
    cbn [map] in *.
    assert (Hfree : tuple_in (component_draft (p, text)) (map Component.name acc)
                    = false).
    { destruct (tuple_in _ _) eqn:E; [|reflexivity].
      apply tuple_in_In in E. apply NoDup_remove_2 in Hnd.
      exfalso. apply Hnd. apply in_or_app. now left. }
    assert (Hname : Component.name
                      (staged_component (map Component.name acc) p text)
                    = component_draft (p, text)).
    { unfold staged_component, component_draft in *. cbn [fst snd] in *.
      cbn [Component.name]. now rewrite Hfree. }
    rewrite IH; rewrite map_app; cbn [map]; rewrite Hname, <- app_assoc.
    + reflexivity.
    + cbn [app]. apply NoDup_Add with (a := component_draft (p, text))
        (l := map Component.name acc ++ map component_draft (readable fs)).
      * apply Add_app.
      * apply NoDup_remove in Hnd. tauto.
  - exact (IH acc Hnd).
Qed.

Lemma stage_doc_sections_drafts (fs : list (str * option str)) :
  forall acc,
    NoDup (map DocSection.name acc ++ map doc_section_draft (readable fs)) ->
    map DocSection.name (stage_doc_sections acc fs)
    = map DocSection.name acc ++ map doc_section_draft (readable fs).
Proof.
  induction fs as [|[p [text|]] fs IH]; intros acc Hnd; cbn [stage_doc_sections].
  - cbn. now rewrite app_nil_r.
  - change (readable ((p, Some text) :: fs)) with ((p, text) :: readable fs) in *.
    cbn [map] in *.
    assert (Hfree : tuple_in (doc_section_draft (p, text))
                             (map DocSection.name acc) = false).
    { destruct (tuple_in _ _) eqn:E; [|reflexivity].
      apply tuple_in_In in E. apply NoDup_remove_2 in Hnd.
      exfalso. apply Hnd. apply in_or_app. now left. }
    assert (Hname : DocSection.name
                      (staged_doc_section (map DocSection.name acc) p text)
                    = doc_section_draft (p, text)).
    { unfold staged_doc_section, doc_section_draft in *. cbn [fst snd] in *.
      cbn [DocSection.name]. now rewrite Hfree. }
    rewrite IH; rewrite map_app; cbn [map]; rewrite Hname, <- app_assoc.
    + reflexivity.
    + cbn [app]. apply NoDup_Add with (a := doc_section_draft (p, text))
        (l := map DocSection.name acc ++ map doc_section_draft (readable fs)).
      * apply Add_app.
      * apply NoDup_remove in Hnd. tauto.
  - exact (IH acc Hnd).
Qed.

(** X3: when no two readable files of the library draft the same name,
    and no two readable files of the documentation do, the rebuild
    completes and every record is stored under its drafted name: nothing
    is renamed. *)
Theorem X3_no_collision_no_renaming :
  forall docs db,
    NoDup (map component_draft (readable (library_files docs))) ->
    NoDup (map doc_section_draft (readable (doc_files docs))) ->
    exists db',
      populate_database docs db = (Ok tt, db')
      /\ component_names db'
         = map component_draft (readable (library_files docs))
      /\ doc_section_names db'
         = map doc_section_draft (readable (doc_files docs)).
Proof.
  intros docs db Hc Hd.
  pose proof (stage_components_drafts (library_files docs) [] Hc) as Ec.
  pose proof (stage_doc_sections_drafts (doc_files docs) [] Hd) as Ed.
  cbn [map app] in Ec, Ed.
  exists (staged docs). split; [|split; assumption].
  apply distinct_staged_completes.
  - unfold component_names, staged. cbn [components]. now rewrite Ec.
  - unfold doc_section_names, staged. cbn [doc_sections]. now rewrite Ed.
Qed.

Lemma X3_witness :
  exists db',
    populate_database distinct_tree old_catalog = (Ok tt, db')
    /\ component_names db' = [py "Button"; py "Input"]
    /\ doc_section_names db' = [py "Notes"; py "Intro"; py "Button Guide"].
Proof.
  destruct (X3_no_collision_no_renaming distinct_tree old_catalog)
    as (db' & H & Hc & Hd).
  - apply distinct_NoDup. vm_compute. reflexivity.
  - apply distinct_NoDup. vm_compute. reflexivity.
  - exists db'. split; [exact H|]. rewrite Hc, Hd.
    split; vm_compute; reflexivity.
Defined.

(** ** Files that do not count *)

Lemma walk_prune (keep : str * option str -> bool) (t : tree) :
  forall top,
    walk top (prune keep t)
    = map (fun rf => (fst rf, filter keep (snd rf))) (walk top t).
Proof.
  induction t as [files dirs IH] using tree_induction. intros top.
  cbn [prune walk map fst snd]. f_equal.
  induction dirs as [|d dirs IHd]; [reflexivity|].
  inversion IH as [|? ? Hd Hdirs]; subst.
  cbn [map flat_map fst snd]. now rewrite map_app, Hd, IHd.
Qed.

Lemma subdir_prune (keep : str * option str -> bool) (name : str)
      (dirs : list (str * tree)) :
  subdir name (map (fun d => (fst d, prune keep (snd d))) dirs)
  = option_map (prune keep) (subdir name dirs).
Proof.
  induction dirs as [|[n t] dirs IH]; [reflexivity|].
  cbn [map subdir fst snd]. now destruct (PyStr.eqb n name).
Qed.

Lemma stage_components_readable (fs : list (str * option str)) :
  forall acc,
    stage_components acc fs
    = stage_components acc (map (fun f => (fst f, Some (snd f))) (readable fs)).
Proof.
  induction fs as [|[p [text|]] fs IH]; intros acc; [reflexivity| |].
  - change (readable ((p, Some text) :: fs)) with ((p, text) :: readable fs).
    cbn [map fst snd stage_components]. apply IH.
  - exact (IH acc).
Qed.

Lemma stage_doc_sections_readable (fs : list (str * option str)) :
  forall acc,
    stage_doc_sections acc fs
    = stage_doc_sections acc
        (map (fun f => (fst f, Some (snd f))) (readable fs)).
Proof.
  induction fs as [|[p [text|]] fs IH]; intros acc; [reflexivity| |].
  - change (readable ((p, Some text) :: fs)) with ((p, text) :: readable fs).
    cbn [map fst snd stage_doc_sections]. apply IH.
  - exact (IH acc).
Qed.

Lemma readable_cons (f : str * option str) (fs : list (str * option str)) :
  readable (f :: fs)
  = match snd f with
    | Some text => (fst f, text) :: readable fs
    | None => readable fs
    end.
Proof. unfold readable. cbn [flat_map]. now destruct (snd f). Qed.

Lemma readable_kept (keep : str * option str -> bool) (root : str)
      (files : list (str * option str)) :
  (forall f, is_markdown f = true -> is_some (snd f) = true -> keep f = true) ->
  readable (with_root root (filter is_markdown (filter keep files)))
  = readable (with_root root (filter is_markdown files)).
Proof.
  intros Hkeep. induction files as [|f files IH]; [reflexivity|].
  cbn [filter]. destruct (is_markdown f) eqn:Hm.
  - destruct (keep f) eqn:Hk.
    + cbn [filter]. rewrite Hm. unfold with_root in *. cbn [map].
      now rewrite !readable_cons, IH.
    + rewrite IH. unfold with_root. cbn [map].
      rewrite readable_cons. cbn [fst snd].
      destruct (snd f) as [text|] eqn:Hs; [|reflexivity].
      specialize (Hkeep f Hm). rewrite Hs in Hkeep.
      specialize (Hkeep eq_refl). congruence.
  - destruct (keep f); [cbn [filter]; rewrite Hm|]; exact IH.
Qed.

Lemma markdown_files_prune (keep : str * option str -> bool)
      (skip : str -> bool) (top : str) (t : tree) :
  (forall f, is_markdown f = true -> is_some (snd f) = true -> keep f = true) ->
  readable (markdown_files skip top (prune keep t))
  = readable (markdown_files skip top t).
Proof.
  intros Hkeep. unfold markdown_files. rewrite walk_prune.
  induction (walk top t) as [|rf w IH]; [reflexivity|].
  cbn [map flat_map fst snd]. rewrite !readable_app, IH. f_equal.
  destruct (skip (fst rf)); [reflexivity|].
  now apply readable_kept.
Qed.

Lemma staged_prune (keep : str * option str -> bool) (docs : tree) :
  (forall f, is_markdown f = true -> is_some (snd f) = true -> keep f = true) ->
  staged (prune keep docs) = staged docs.
Proof.
  intros Hkeep. unfold staged. f_equal.
  - rewrite stage_components_readable,
      (stage_components_readable (library_files docs)).
    f_equal. f_equal. destruct docs as [files dirs].
    cbn [prune library_files]. rewrite subdir_prune.
    destruct (subdir (py "library") dirs) as [library|]; [|reflexivity].
    cbn [option_map]. now apply markdown_files_prune.
  - rewrite stage_doc_sections_readable,
      (stage_doc_sections_readable (doc_files docs)).
    f_equal. f_equal. now apply markdown_files_prune.
Qed.

(** X4: files that are not markdown and files that cannot be read have no
    effect on a rebuild: taking any of them out of the tree changes
    neither the outcome nor the records stored. *)
Theorem X4_other_files_do_not_count :
  forall keep docs db,
    (forall f, is_markdown f = true -> is_some (snd f) = true ->
               keep f = true) ->
    populate_database (prune keep docs) db = populate_database docs db.
Proof.
  intros keep docs db Hkeep.
  now rewrite !populate_database_eq, (staged_prune _ _ Hkeep).
Qed.

Lemma X4_witness :
  populate_database
    (prune (fun f => is_markdown f && is_some (snd f)) mixed_tree) old_catalog
  = populate_database mixed_tree old_catalog.
Proof.
  apply X4_other_files_do_not_count.
  intros f Hm Hr. now rewrite Hm, Hr.
Defined.

(** ** A file is stored once *)

Lemma split_head_prefix (sep : ascii) (s w : str) (ws : list str) :
  PyStr.split sep s = w :: ws -> PyStr.startswith w s = true.
Proof.
  revert w ws; induction s as [|c s IH]; intros w ws; cbn [PyStr.split].
  - now intros [= <- _].
  - destruct (Ascii.eqb c sep); [now intros [= <- _]|].
    destruct (PyStr.split sep s) as [|w' ws'] eqn:E.
    + now apply split_nonempty in E.
    + intros [= <- _]. cbn. now rewrite Ascii.eqb_refl, (IH _ _ eq_refl).
Qed.

Lemma contains_tail (p : str) (c : ascii) (s : str) :
  PyStr.contains p s = true -> PyStr.contains p (c :: s) = true.
Proof.
  intros H. cbn [PyStr.contains]. rewrite H. apply orb_true_r.
Qed.

Lemma contains_prefix (p s : str) :
  PyStr.startswith p s = true -> PyStr.contains p s = true.
Proof. intros H. destruct s; cbn [PyStr.contains]; now rewrite H. Qed.

Lemma split_contains (sep : ascii) (s x : str) :
  In x (PyStr.split sep s) -> PyStr.contains x s = true.
Proof.
  induction s as [|c s IH]; cbn [PyStr.split].
  - intros [<- | []]. reflexivity.
  - destruct (Ascii.eqb c sep).
    + intros [<- | H]; [reflexivity|]. apply contains_tail. now apply IH.
    + destruct (PyStr.split sep s) as [|w ws] eqn:E.
      * now apply split_nonempty in E.
      * intros [<- | H].
        -- apply contains_prefix. cbn.
           now rewrite Ascii.eqb_refl, (split_head_prefix _ _ E).
        -- apply contains_tail, IH. now right.
Qed.

Lemma relative_parts_contains (p x : str) :
  relative p = true -> In x (PurePath.parts p) -> PyStr.contains x p = true.
Proof.
  intros Hrel H. rewrite (relative_parts _ Hrel) in H.
  unfold PurePath.tail in H. apply filter_In in H as [H _].
  exact (split_contains _ _ _ H).
Qed.

Lemma walk_files_valid (t : tree) :
  forall top rf f,
    wf_tree t = true -> In rf (walk top t) -> In f (snd rf) ->
    valid_name (fst f) = true.
Proof.
  induction t as [fs ds IH] using tree_induction.
  intros top rf f Hwf Hrf Hf. cbn [wf_tree] in Hwf. cbn [walk] in Hrf.
  apply andb_true_iff in Hwf as [Hfs Hds].
  destruct Hrf as [<- | Hrf].
  - rewrite forallb_forall in Hfs. now apply Hfs.
  - apply in_flat_map in Hrf as (d & Hd & Hrf).
    rewrite forallb_forall in Hds. rewrite Forall_forall in IH.
    specialize (Hds d Hd). apply andb_true_iff in Hds as [_ Hsub].
    exact (IH d Hd _ rf f Hsub Hrf Hf).
Qed.

(** The path of a file the documentation walk processes: no directory on
    it is called "library". *)
Lemma doc_file_parts (docs : tree) (p : str) (text : option str) :
  wf_tree docs = true ->
  In (p, text) (doc_files docs) ->
  exists below file,
    PurePath.parts p = py "reflex_docs" :: below ++ [file]
    /\ ~ In (py "library") below
    /\ PyStr.endswith (py ".md") file = true.
Proof.
  intros Hwf Hin. unfold doc_files, markdown_files in Hin.
  apply in_flat_map in Hin as (rf & Hrf & Hin).
  destruct (PyStr.contains (py "library") (fst rf)) eqn:Hskip; [contradiction|].
  apply in_map_iff in Hin as (f & [= <- <-] & Hf).
  apply filter_In in Hf as [Hf Hmd].
  assert (Htop : relative docs_path = true) by reflexivity.
  destruct (walk_parts docs _ Hwf Htop rf Hrf) as (Hr & below & Hparts).
  pose proof (walk_files_valid docs _ rf f Hwf Hrf Hf) as Hvalid.
  exists below, (fst f). split; [|split].
  - rewrite parts_join, Hparts by assumption. reflexivity.
  - intros Hlib.
    assert (Hc : PyStr.contains (py "library") (fst rf) = true).
    { apply relative_parts_contains; [assumption|].
      rewrite Hparts. apply in_or_app. now right. }
    congruence.
  - exact Hmd.
Qed.

Lemma library_and_doc_files_differ (docs : tree) (p p' : str)
      (text text' : option str) :
  wf_tree docs = true ->
  In (p, text) (library_files docs) ->
  In (p', text') (doc_files docs) ->
  p <> p'.
Proof.
  intros Hwf Hc Hd E. subst p'.
  destruct (library_file_parts _ _ _ Hwf Hc) as (bl & fl & Hl).
  destruct (doc_file_parts _ _ _ Hwf Hd) as (bd & fd & Hp & Hno & _).
  rewrite Hl in Hp. injection Hp as Hp.
  destruct bd as [|b bd]; cbn [app] in Hp.
  - injection Hp as _ Hp. now destruct bl.
  - injection Hp as <- _. apply Hno. now left.
Qed.

Lemma Forall2_In_l {A B} (R : A -> B -> Prop) (l : list A) (l' : list B) (x : A) :
  Forall2 R l l' -> In x l -> exists y, In y l' /\ R x y.
Proof.
  induction 1 as [|a b l l' Hab H IH]; [intros []|].
  intros [<- | Hx].
  - exists b. split; [now left | assumption].
  - destruct (IH Hx) as (y & Hy & Hr). exists y. split; [now right | assumption].
Qed.

Lemma readable_In (fs : list (str * option str)) (p text : str) :
  In (p, text) (readable fs) -> In (p, Some text) fs.
Proof.
  unfold readable. intros H. apply in_flat_map in H as ([q [t|]] & Hf & H);
    cbn [fst snd] in H; [|contradiction].
  destruct H as [[= <- <-] | []]. exact Hf.
Qed.

(** X5: over a tree whose names are those of a directory listing, no file
    is stored twice: the file path of a Component is never the file path
    of a DocSection. *)
Theorem X5_catalogs_share_no_file :
  forall docs db c d,
    wf_tree docs = true ->
    In c (components (snd (populate_database docs db))) ->
    In d (doc_sections (snd (populate_database docs db))) ->
    Component.file_path c <> DocSection.file_path d.
Proof.
  intros docs db c d Hwf Hc Hd. rewrite populate_database_eq in Hc, Hd.
  destruct (distinct_names _ _); cbn [snd] in Hc, Hd; [|contradiction].
  unfold staged in Hc, Hd. cbn [components doc_sections] in Hc, Hd.
  destruct (stage_components_records (library_files docs) [])
    as (cs & Ec & Hcs).
  destruct (stage_doc_sections_records (doc_files docs) [])
    as (ds & Ed & Hds).
  rewrite Ec in Hc. rewrite Ed in Hd. cbn [app] in Hc, Hd.
  destruct (@Forall2_In_l _ _ _ _ _ _ Hcs Hc) as ([p t] & Hp & -> & _).
  destruct (@Forall2_In_l _ _ _ _ _ _ Hds Hd) as ([p' t'] & Hp' & -> & _).
  cbn [fst]. apply readable_In in Hp, Hp'.
  exact (@library_and_doc_files_differ docs _ _ _ _ Hwf Hp Hp').
Qed.

Lemma X5_witness :
  Component.file_path
    (staged_component [] (py "reflex_docs/library/forms/button.md") button_doc)
  <> DocSection.file_path
       (staged_doc_section [] (py "reflex_docs/index.md") notes_doc).
Proof.
  apply (X5_catalogs_share_no_file mixed_tree old_catalog).
  - vm_compute. reflexivity.
  - vm_compute. left. reflexivity.
  - vm_compute. left. reflexivity.
Defined.

(** ** Names and descriptions taken from the text *)

Lemma lstrip_spec (s : str) :
  exists lead,
    s = lead ++ PyStr.lstrip s /\ forallb PyStr.is_space lead = true
    /\ match PyStr.lstrip s with
       | [] => True
       | c :: _ => PyStr.is_space c = false
       end.
Proof.
  induction s as [|c s (lead & E & Hl & Hh)]; cbn [PyStr.lstrip].
  - now exists [].
  - destruct (PyStr.is_space c) eqn:Hc.
    + exists (c :: lead). cbn. rewrite Hc, Hl. repeat split; [congruence | exact Hh].
    + exists []. repeat split. exact Hc.
Qed.

Lemma forallb_reversed {A} (f : A -> bool) (l : list A) :
  forallb f (rev l) = forallb f l.
Proof.
  induction l as [|x l IH]; [reflexivity|].
  cbn [rev forallb]. rewrite forallb_app, IH. cbn. now rewrite andb_true_r, andb_comm.
Qed.

Lemma strip_spec (s : str) :
  exists lead trail,
    s = lead ++ PyStr.strip s ++ trail
    /\ forallb PyStr.is_space lead = true
    /\ forallb PyStr.is_space trail = true
    /\ trimmed (PyStr.strip s).
Proof.
  unfold PyStr.strip, PyStr.rstrip.
  destruct (lstrip_spec s) as (lead & E & Hl & Hh).
  destruct (lstrip_spec (rev (PyStr.lstrip s))) as (tr & E' & Ht & Hh').
  set (u := PyStr.lstrip s) in *. set (w := PyStr.lstrip (rev u)) in *.
  assert (Eu : u = rev w ++ rev tr).
  { rewrite <- rev_app_distr, <- E'. now rewrite rev_involutive. }
  exists lead, (rev tr). split; [now rewrite <- Eu|]. split; [exact Hl|].
  split; [now rewrite forallb_reversed|].
  unfold trimmed. destruct (rev w) as [|c r] eqn:Ew; [exact I|].
  split.
  - rewrite Eu in Hh. exact Hh.
  - rewrite <- Ew. destruct w as [|x w']; [discriminate|].
    cbn [rev]. now rewrite last_last.
Qed.

Lemma strip_keeps_lines (s : str) :
  existsb is_newline s = false -> existsb is_newline (PyStr.strip s) = false.
Proof.
  destruct (strip_spec s) as (lead & trail & E & _). intros H.
  rewrite E, !existsb_app in H.
  apply orb_false_iff in H as [_ H]. now apply orb_false_iff in H as [H _].
Qed.

Lemma frontmatter_name_tidy (content n : str) :
  frontmatter_name content = Some n ->
  trimmed n /\ existsb is_newline n = false.
Proof.
  unfold frontmatter_name.
  destruct (search dotall frontmatter_re content) as [fm|]; [|discriminate].
  destruct (search no_flags components_re (group1 fm)) as [cm|] eqn:Hcm;
    [|discriminate].
  intros [= <-].
  destruct (components_shape _ Hcm) as (_ & _ & _ & _ & _ & _ & _ & _ & Hnl & _).
  split; [|now apply strip_keeps_lines].
  now destruct (strip_spec (group1 cm)) as (_ & _ & _ & _ & _ & H).
Qed.

Lemma heading_tidy (content : str) (h : state) :
  search multiline heading_re content = Some h ->
  trimmed (PyStr.strip (group1 h))
  /\ existsb is_newline (PyStr.strip (group1 h)) = false.
Proof.
  intros Hh.
  destruct (heading_shape _ Hh) as (_ & _ & _ & _ & _ & _ & _ & _ & Hnl & _).
  split; [|now apply strip_keeps_lines].
  now destruct (strip_spec (group1 h)) as (_ & _ & _ & _ & _ & H).
Qed.

(** X6: a name taken from the text has no white space at either end and
    no line feed inside: the Component name whenever the frontmatter or a
    heading gave a name that is not empty, and the DocSection name
    whenever the document has a heading. *)
Theorem X6_names_from_text_are_tidy :
  forall content file_path,
    (is_set (resolved_name content) = true ->
     trimmed (fst (extract_component_info content file_path))
     /\ existsb is_newline (fst (extract_component_info content file_path))
        = false)
    /\ (search multiline heading_re content <> None ->
        trimmed (doc_name content file_path)
        /\ existsb is_newline (doc_name content file_path) = false).
Proof.
  intros content file_path. split.
  - rewrite extract_name. intros Hset. rewrite Hset.
    unfold resolved_name in *.
    destruct (is_set (frontmatter_name content)) eqn:Hf; cbn [negb] in *.
    + destruct (frontmatter_name content) as [n|] eqn:E; [|discriminate].
      now apply (frontmatter_name_tidy content).
    + unfold heading_name in *.
      destruct (search multiline heading_re content) as [h|] eqn:Hh.
      * now apply (heading_tidy content).
      * congruence.
  - unfold doc_name.
    destruct (search multiline heading_re content) as [h|] eqn:Hh;
      [|congruence].
    intros _. now apply (heading_tidy content).
Qed.

Lemma X6_witness :
  trimmed (fst (extract_component_info button_doc
                  (py "reflex_docs/library/forms/button.md")))
  /\ trimmed (fst (extract_component_info guide_doc
                     (py "reflex_docs/library/forms/button.md")))
  /\ trimmed (doc_name guide_doc (py "reflex_docs/guide.md")).
Proof.
  split; [|split].
  - apply (proj1 (X6_names_from_text_are_tidy button_doc
                    (py "reflex_docs/library/forms/button.md"))).
    vm_compute. reflexivity.
  - apply (proj1 (X6_names_from_text_are_tidy guide_doc
                    (py "reflex_docs/library/forms/button.md"))).
    vm_compute. reflexivity.
  - apply (proj2 (X6_names_from_text_are_tidy guide_doc
                    (py "reflex_docs/guide.md"))).
    vm_compute. discriminate.
Defined.





(** ** Sorting *)

Lemma str_leb_refl (a : str) : str_leb a a = true.
Proof.
  induction a as [|x a IH]; [reflexivity|].
  cbn [str_leb]. now rewrite Nat.ltb_irrefl.
Qed.

Lemma str_leb_total (a b : str) : str_leb a b = false -> str_leb b a = true.
Proof.
  revert b; induction a as [|x a IH]; intros [|y b]; cbn [str_leb];
    try discriminate; try reflexivity.
  destruct (nat_of_ascii x <? nat_of_ascii y) eqn:E1; [discriminate|].
  destruct (nat_of_ascii y <? nat_of_ascii x) eqn:E2; [reflexivity|].
  apply IH.
Qed.

Lemma str_leb_trans (a b c : str) :
  str_leb a b = true -> str_leb b c = true -> str_leb a c = true.
Proof.
  revert b c; induction a as [|x a IH]; intros [|y b] [|z c];
    cbn [str_leb]; try discriminate; try reflexivity.
  destruct (nat_of_ascii x <? nat_of_ascii y) eqn:Exy;
    destruct (nat_of_ascii y <? nat_of_ascii x) eqn:Eyx;
    destruct (nat_of_ascii y <? nat_of_ascii z) eqn:Eyz;
    destruct (nat_of_ascii z <? nat_of_ascii y) eqn:Ezy;
    destruct (nat_of_ascii x <? nat_of_ascii z) eqn:Exz;
    destruct (nat_of_ascii z <? nat_of_ascii x) eqn:Ezx;
    try discriminate; try reflexivity;
    rewrite ?Nat.ltb_lt, ?Nat.ltb_ge in *; try lia.
  apply IH.
Qed.

Lemma str_leb_antisym (a b : str) :
  str_leb a b = true -> str_leb b a = true -> a = b.
Proof.
  revert b; induction a as [|x a IH]; intros [|y b]; cbn [str_leb];
    try discriminate; try reflexivity.
  destruct (nat_of_ascii x <? nat_of_ascii y) eqn:Exy;
    destruct (nat_of_ascii y <? nat_of_ascii x) eqn:Eyx;
    try discriminate;
    rewrite ?Nat.ltb_lt, ?Nat.ltb_ge in *; try lia.
  intros H1 H2. f_equal; [|now apply IH].
  rewrite <- (ascii_nat_embedding x), <- (ascii_nat_embedding y).
  f_equal. lia.
Qed.

Lemma insert_by_perm {A} (key : A -> str) (x : A) (l : list A) :
  Permutation (insert_by key x l) (x :: l).
Proof.
  induction l as [|y l IH]; cbn [insert_by]; [reflexivity|].
  destruct (str_leb (key x) (key y)); [reflexivity|].
  rewrite IH. apply perm_swap.
Qed.

Lemma sorted_perm {A} (key : A -> str) (l : list A) :
  Permutation (sorted key l) l.
Proof.
  induction l as [|x l IH]; [reflexivity|].
  cbn [sorted fold_right]. fold (sorted key l).
  now rewrite insert_by_perm, IH.
Qed.

Lemma insert_by_ascending {A} (key : A -> str) (x : A) (l : list A) :
  ascending key l -> ascending key (insert_by key x l).
Proof.
  unfold ascending. induction 1 as [|y l Hl IH Hy]; cbn [insert_by].
  - constructor; constructor.
  - destruct (str_leb (key x) (key y)) eqn:E.
    + constructor; [now constructor|]. constructor; [exact E|].
      rewrite Forall_forall in *. intros z Hz.
      exact (str_leb_trans _ _ _ E (Hy z Hz)).
    + constructor; [exact IH|].
      rewrite Forall_forall in *. intros z Hz.
      apply (Permutation_in _ (insert_by_perm key x l)) in Hz.
      destruct Hz as [<- | Hz]; [now apply str_leb_total | now apply Hy].
Qed.

Lemma sorted_ascending {A} (key : A -> str) (l : list A) :
  ascending key (sorted key l).
Proof.
  induction l as [|x l IH]; [constructor|].
  cbn [sorted fold_right]. now apply insert_by_ascending.
Qed.

(** ** Looking a record up *)

Lemma filter_key_absent {A} (key : A -> str) (n : str) (l : list A) :
  ~ In n (map key l) -> filter (fun x => PyStr.eqb (key x) n) l = [].
Proof.
  induction l as [|x l IH]; [reflexivity|]. cbn [map filter]. intros H.
  destruct (PyStr.eqb (key x) n) eqn:E.
  - apply eqb_eq in E. exfalso. apply H. now left.
  - apply IH. intros Hn. apply H. now right.
Qed.

Lemma filter_key_unique {A} (key : A -> str) (c : A) (l : list A) :
  NoDup (map key l) -> In c l ->
  filter (fun x => PyStr.eqb (key x) (key c)) l = [c].
Proof.
  induction l as [|x l IH]; [intros _ []|]. cbn [map filter].
  intros Hnd Hin. inversion Hnd as [|? ? Hx Hl]; subst.
  destruct Hin as [-> | Hin].
  - rewrite eqb_refl. f_equal. now apply filter_key_absent.
  - destruct (PyStr.eqb (key x) (key c)) eqn:E; [|now apply IH].
    apply eqb_eq in E. exfalso. apply Hx. rewrite E. now apply in_map.
Qed.

Lemma filter_key_In {A} (key : A -> str) (n : str) (l : list A) (x : A) :
  In x (filter (fun y => PyStr.eqb (key y) n) l) -> In x l /\ key x = n.
Proof.
  intros H. apply filter_In in H as [H E]. now apply eqb_eq in E.
Qed.

Lemma filter_key_present {A} (key : A -> str) (n : str) (l : list A) :
  In n (map key l) -> filter (fun x => PyStr.eqb (key x) n) l <> [].
Proof.
  intros H E. apply in_map_iff in H as (x & Hk & Hx).
  assert (Hf : In x (filter (fun y => PyStr.eqb (key y) n) l)).
  { apply filter_In. split; [exact Hx|]. now apply eqb_eq. }
  now rewrite E in Hf.
Qed.

Lemma filter_key_twice {A} (key : A -> str) (n : str) (l : list A) (x y : A)
      (rest : list A) :
  filter (fun z => PyStr.eqb (key z) n) l = x :: y :: rest ->
  ~ NoDup (map key l).
Proof.
  revert x y rest; induction l as [|a l IH]; [discriminate|].
  intros x y rest. cbn [filter map]. intros H Hnd.
  inversion Hnd as [|? ? Ha Hl]; subst.
  destruct (PyStr.eqb (key a) n) eqn:E; [|exact (IH _ _ _ H Hl)].
  injection H as <- H. apply eqb_eq in E.
  assert (Hy : In y (filter (fun z => PyStr.eqb (key z) n) l))
    by (rewrite H; now left).
  apply filter_key_In in Hy as [Hy Hk].
  apply Ha. rewrite E, <- Hk. now apply in_map.
Qed.

(** X8: on every database a lookup by name answers 404 exactly when no
    record has that name; what it returns is a stored record with exactly
    that name; and it fails otherwise only when two records share the
    name. *)
Theorem X8_lookup_by_exact_name :
  forall name db,
    ((get_component_doc name db = HTTPException 404
      <-> ~ In name (component_names db))
     /\ (forall r,
           get_component_doc name db = Returned r ->
           exists c,
             In c (components db) /\ Component.name c = name
             /\ r = {| ComponentResponse.name := name;
                       ComponentResponse.category := Component.category c;
                       ComponentResponse.content := Component.content c;
                       ComponentResponse.description :=
                         Component.description c |})
     /\ (get_component_doc name db = Unhandled ->
         ~ NoDup (component_names db)))
    /\ ((get_doc name db = HTTPException 404
         <-> ~ In name (doc_section_names db))
        /\ (forall r,
              get_doc name db = Returned r ->
              exists d,
                In d (doc_sections db) /\ DocSection.name d = name
                /\ r = {| DocSectionResponse.name := name;
                          DocSectionResponse.section := DocSection.section d;
                          DocSectionResponse.content := DocSection.content d;
                          DocSectionResponse.description :=
                            DocSection.description d |})
        /\ (get_doc name db = Unhandled -> ~ NoDup (doc_section_names db))).
Proof.
  intros name db. split.
  - unfold get_component_doc, component_names.
    destruct (filter _ (components db)) as [|x [|y rest]] eqn:E;
      cbn [scalar_one_or_none].
    + split; [|split]; try discriminate.
      split; [|reflexivity]. intros _ Hin.
      now apply (filter_key_present Component.name) in Hin.
    + assert (Hx : In x (filter (fun c => PyStr.eqb (Component.name c) name)
                                (components db))) by (rewrite E; now left).
      apply filter_key_In in Hx as [Hx Hk].
      split; [|split]; try discriminate.
      * split; [discriminate|]. intros Hn. exfalso. apply Hn.
        rewrite <- Hk. now apply in_map.
      * intros r [= <-]. exists x. now rewrite Hk.
    + split; [|split]; try discriminate.
      * split; [discriminate|]. intros Hn.
        rewrite (filter_key_absent Component.name _ _ Hn) in E. discriminate.
      * intros _. exact (filter_key_twice _ _ _ E).
  - unfold get_doc, doc_section_names.
    destruct (filter _ (doc_sections db)) as [|x [|y rest]] eqn:E;
      cbn [scalar_one_or_none].
    + split; [|split]; try discriminate.
      split; [|reflexivity]. intros _ Hin.
      now apply (filter_key_present DocSection.name) in Hin.
    + assert (Hx : In x (filter (fun d => PyStr.eqb (DocSection.name d) name)
                                (doc_sections db))) by (rewrite E; now left).
      apply filter_key_In in Hx as [Hx Hk].
      split; [|split]; try discriminate.
      * split; [discriminate|]. intros Hn. exfalso. apply Hn.
        rewrite <- Hk. now apply in_map.
      * intros r [= <-]. exists x. now rewrite Hk.
    + split; [|split]; try discriminate.
      * split; [discriminate|]. intros Hn.
        rewrite (filter_key_absent DocSection.name _ _ Hn) in E. discriminate.
      * intros _. exact (filter_key_twice _ _ _ E).
Qed.

Lemma X8_witness :
  get_component_doc (py "Missing") old_catalog = HTTPException 404.
Proof.
  apply (proj1 (X8_lookup_by_exact_name (py "Missing") old_catalog)).
  vm_compute. intros [H | []]. discriminate.
Defined.

Lemma lookup_component (db : database) (c : Component.t) :
  NoDup (component_names db) -> In c (components db) ->
  get_component_doc (Component.name c) db
  = Returned {| ComponentResponse.name := Component.name c;
                ComponentResponse.category := Component.category c;
                ComponentResponse.content := Component.content c;
                ComponentResponse.description := Component.description c |}.
Proof.
  intros Hnd Hin. unfold get_component_doc.
  now rewrite (filter_key_unique Component.name c _ Hnd Hin).
Qed.

Lemma lookup_doc_section (db : database) (d : DocSection.t) :
  NoDup (doc_section_names db) -> In d (doc_sections db) ->
  get_doc (DocSection.name d) db
  = Returned {| DocSectionResponse.name := DocSection.name d;
                DocSectionResponse.section := DocSection.section d;
                DocSectionResponse.content := DocSection.content d;
                DocSectionResponse.description := DocSection.description d |}.
Proof.
  intros Hnd Hin. unfold get_doc.
  now rewrite (filter_key_unique DocSection.name d _ Hnd Hin).
Qed.

Lemma completed_names_unique (docs : tree) (db db' : database) :
  populate_database docs db = (Ok tt, db') ->
  db' = staged docs
  /\ NoDup (component_names db') /\ NoDup (doc_section_names db').
Proof.
  intros H. rewrite populate_database_eq in H.
  destruct (distinct_names _ _) eqn:Hd; [|discriminate].
  injection H as <-. unfold distinct_names in Hd.
  apply andb_true_iff in Hd as [Hc Hs]. apply distinct_NoDup in Hc, Hs.
  now repeat split.
Qed.

Lemma Forall2_In_r {A B} (R : A -> B -> Prop) (l : list A) (l' : list B) (y : B) :
  Forall2 R l l' -> In y l' -> exists x, In x l /\ R x y.
Proof.
  induction 1 as [|a b l l' Hab H IH]; [intros []|].
  intros [<- | Hy].
  - exists a. split; [now left | assumption].
  - destruct (IH Hy) as (x & Hx & Hr). exists x. split; [now right | assumption].
Qed.

(** X9: after a completed rebuild every readable markdown file that one
    of the two walks processed (the files of the library walk, and those
    of the documentation walk, which passes over every directory whose
    path contains "library") can be looked up through the query layer:
    some name looks up a record whose content is the text the rebuild read
    from the file and whose classification is the one derived from the
    file's path.  Every stored record is returned by a lookup of its name,
    and no lookup fails on a duplicate. *)
Theorem X9_rebuild_then_lookup :
  forall docs db db',
    populate_database docs db = (Ok tt, db') ->
    (forall p text,
       In (p, text) (readable (library_files docs)) ->
       exists name r,
         get_component_doc name db' = Returned r
         /\ ComponentResponse.content r = text
         /\ ComponentResponse.category r = get_category_from_path p)
    /\ (forall p text,
          In (p, text) (readable (doc_files docs)) ->
          exists name r,
            get_doc name db' = Returned r
            /\ DocSectionResponse.content r = text
            /\ DocSectionResponse.section r = get_section_from_path p)
    /\ (forall c,
          In c (components db') ->
          exists r, get_component_doc (Component.name c) db' = Returned r
                    /\ ComponentResponse.content r = Component.content c)
    /\ (forall d,
          In d (doc_sections db') ->
          exists r, get_doc (DocSection.name d) db' = Returned r
                    /\ DocSectionResponse.content r = DocSection.content d)
    /\ (forall name, get_component_doc name db' <> Unhandled
                     /\ get_doc name db' <> Unhandled).
Proof.
  intros docs db db' H.
  destruct (completed_names_unique _ _ H) as (-> & Hc & Hd).
  split; [|split; [|split; [|split]]].
  - intros p text Hin.
    destruct (stage_components_records (library_files docs) [])
      as (cs & E & Hcs). cbn [app] in E.
    destruct (@Forall2_In_r _ _ _ _ _ _ Hcs Hin) as (c & Hcin & Hp & Ht & Hcat & _).
    cbn [fst snd] in *.
    assert (Hin' : In c (components (staged docs)))
      by (unfold staged; cbn [components]; now rewrite E).
    eexists. eexists. split; [exact (lookup_component _ _ Hc Hin')|].
    cbn. now split.
  - intros p text Hin.
    destruct (stage_doc_sections_records (doc_files docs) [])
      as (ds & E & Hds). cbn [app] in E.
    destruct (@Forall2_In_r _ _ _ _ _ _ Hds Hin) as (d & Hdin & Hp & Ht & Hsec & _).
    cbn [fst snd] in *.
    assert (Hin' : In d (doc_sections (staged docs)))
      by (unfold staged; cbn [doc_sections]; now rewrite E).
    eexists. eexists. split; [exact (lookup_doc_section _ _ Hd Hin')|].
    cbn. now split.
  - intros c Hin. eexists. split; [exact (lookup_component _ _ Hc Hin)|].
    reflexivity.
  - intros d Hin. eexists. split; [exact (lookup_doc_section _ _ Hd Hin)|].
    reflexivity.
  - intros name. split; intros Hu.
    + unfold get_component_doc in Hu.
      destruct (filter _ _) as [|x [|y rest]] eqn:E; try discriminate.
      exact (filter_key_twice _ _ _ E Hc).
    + unfold get_doc in Hu.
      destruct (filter _ _) as [|x [|y rest]] eqn:E; try discriminate.
      exact (filter_key_twice _ _ _ E Hd).
Qed.

Lemma X9_witness :
  exists name r,
    get_component_doc name (staged two_buttons) = Returned r
    /\ ComponentResponse.content r = button_doc
    /\ ComponentResponse.category r = py "Inputs".
Proof.
  assert (H : populate_database two_buttons old_catalog
              = (Ok tt, staged two_buttons)) by (vm_compute; reflexivity).
  destruct (proj1 (X9_rebuild_then_lookup _ _ H)
              (py "reflex_docs/library/inputs/button.md") button_doc)
    as (name & r & Hr & Hc & Hcat).
  - vm_compute. right. left. reflexivity.
  - exists name, r. split; [exact Hr|]. split; [exact Hc|].
    rewrite Hcat. vm_compute. reflexivity.
Defined.

(** ** Listing names *)

Lemma ascending_keys {A} (key : A -> str) (l : list A) :
  ascending key l -> ascending (fun s => s) (map key l).
Proof.
  unfold ascending. induction 1 as [|x l Hl IH Hx]; cbn [map]; constructor.
  - exact IH.
  - rewrite Forall_forall in *. intros k Hk.
    apply in_map_iff in Hk as (y & <- & Hy). now apply Hx.
Qed.

Lemma filtered_incl {A} (column : A -> str) (value : option str) (table : list A) :
  incl (filtered column value table) table.
Proof.
  unfold filtered. destruct value as [v|]; [|apply incl_refl].
  destruct (PyStr.truthy v); [|apply incl_refl].
  intros x Hx. now apply filter_In in Hx.
Qed.

(** X10: the names an endpoint lists are in ascending order and are names
    of stored records; without a filter, or with an empty one, the list
    is a rearrangement of all the stored names. *)
Theorem X10_listing_is_sorted :
  forall value db,
    (ascending (fun s => s) (list_components value db)
     /\ incl (list_components value db) (component_names db)
     /\ Permutation (list_components None db) (component_names db)
     /\ list_components (Some []) db = list_components None db)
    /\ (ascending (fun s => s) (list_doc_sections value db)
        /\ incl (list_doc_sections value db) (doc_section_names db)
        /\ Permutation (list_doc_sections None db) (doc_section_names db)
        /\ list_doc_sections (Some []) db = list_doc_sections None db).
Proof.
  intros value db. split.
  - unfold list_components, component_names.
    split; [apply ascending_keys, sorted_ascending|].
    split; [|split; [|reflexivity]].
    + intros n Hn. apply in_map_iff in Hn as (c & <- & Hc).
      apply in_map. apply (filtered_incl Component.category value).
      exact (Permutation_in _ (sorted_perm _ _) Hc).
    + apply Permutation_map, sorted_perm.
  - unfold list_doc_sections, doc_section_names.
    split; [apply ascending_keys, sorted_ascending|].
    split; [|split; [|reflexivity]].
    + intros n Hn. apply in_map_iff in Hn as (d & <- & Hd).
      apply in_map. apply (filtered_incl DocSection.section value).
      exact (Permutation_in _ (sorted_perm _ _) Hd).
    + apply Permutation_map, sorted_perm.
Qed.

Lemma like_percent (pattern text : str) :
  like ("%"%char :: pattern) text
  = like pattern text
    || match text with
       | [] => false
       | _ :: text' => like ("%"%char :: pattern) text'
       end.
Proof. destruct text; reflexivity. Qed.

Lemma like_only_percent (text : str) : like ["%"%char] text = true.
Proof.
  induction text as [|c text IH]; [reflexivity|].
  rewrite like_percent, IH. apply orb_true_r.
Qed.

Lemma like_plain_prefix (q text : str) :
  existsb (Ascii.eqb "%") q = false -> existsb (Ascii.eqb "_") q = false ->
  like (q ++ ["%"%char]) text = PyStr.startswith (lower q) (lower text).
Proof.
  revert text; induction q as [|c q IH]; intros text Hp Hu.
  - cbn [app]. rewrite like_only_percent. reflexivity.
  - cbn [existsb] in Hp, Hu.
    apply orb_false_iff in Hp as [Hc Hp]. apply orb_false_iff in Hu as [Hc' Hu].
    rewrite Ascii.eqb_sym in Hc, Hc'.
    cbn [app like]. rewrite Hc. destruct text as [|d text]; [reflexivity|].
    rewrite Hc'. cbn [orb lower map PyStr.startswith].
    fold (lower q). fold (lower text). now rewrite IH.
Qed.

Lemma like_plain_contains (q text : str) :
  existsb (Ascii.eqb "%") q = false -> existsb (Ascii.eqb "_") q = false ->
  like ("%"%char :: q ++ ["%"%char]) text
  = PyStr.contains (lower q) (lower text).
Proof.
  intros Hp Hu. induction text as [|d text IH].
  - rewrite like_percent, like_plain_prefix by assumption.
    cbn [lower map PyStr.contains]. reflexivity.
  - rewrite like_percent, like_plain_prefix, IH by assumption.
    reflexivity.
Qed.

Lemma to_lower_twice (c : ascii) :
  PyStr.to_lower (PyStr.to_lower c) = PyStr.to_lower c.
Proof. destruct c as [[] [] [] [] [] [] [] []]; reflexivity. Qed.

Lemma lower_twice (s : str) : lower (lower s) = lower s.
Proof.
  unfold lower. rewrite map_map. apply map_ext. apply to_lower_twice.
Qed.

Lemma lower_keeps (x : ascii) (s : str) :
  PyStr.is_cased x = false ->
  existsb (Ascii.eqb x) (lower s) = existsb (Ascii.eqb x) s.
Proof.
  intros Hx. induction s as [|c s IH]; [reflexivity|].
  cbn [lower map existsb]. fold (lower s).
  now rewrite (title_char_keeps x true c Hx), IH.
Qed.

Lemma ilike_plain (column value : str) :
  existsb (Ascii.eqb "%") value = false ->
  existsb (Ascii.eqb "_") value = false ->
  ilike column (py "%" ++ value ++ py "%")
  = PyStr.contains (lower value) (lower column).
Proof.
  intros Hp Hu. unfold ilike, lower. rewrite !map_app. fold (lower value).
  fold (lower column). change (map PyStr.to_lower (py "%")) with ["%"%char].
  cbn [app]. rewrite like_plain_contains.
  - now rewrite !lower_twice.
  - now rewrite lower_keeps.
  - now rewrite lower_keeps.
Qed.

Lemma sorted_In {A} (key : A -> str) (l : list A) (x : A) :
  In x (sorted key l) <-> In x l.
Proof.
  split; apply Permutation_in;
    [apply sorted_perm | apply Permutation_sym, sorted_perm].
Qed.



Lemma like_percents (pattern text : str) :
  pattern <> [] -> forallb (Ascii.eqb "%") pattern = true ->
  like pattern text = true.
Proof.
  induction pattern as [|c pattern IH]; [contradiction|]. intros _ H.
  cbn [forallb] in H. apply andb_true_iff in H as [Hc H].
  apply Ascii.eqb_eq in Hc. subst c.
  destruct pattern as [|c' pattern']; [apply like_only_percent|].
  rewrite like_percent, IH; [reflexivity | discriminate | exact H].
Qed.

Lemma filter_all {A} (f : A -> bool) (l : list A) :
  (forall x, f x = true) -> filter f l = l.
Proof.
  intros H. induction l as [|x l IH]; [reflexivity|].
  cbn [filter]. now rewrite H, IH.
Qed.

(** X12: the filter is put into the pattern as it is, so its [%] signs
    are wildcards: a filter made of [%] signs only lists every record,
    like no filter at all. *)
Theorem X12_percent_filter_lists_all :
  forall value db,
    value <> [] ->
    forallb (Ascii.eqb "%") value = true ->
    list_components (Some value) db = list_components None db
    /\ list_doc_sections (Some value) db = list_doc_sections None db.
Proof.
  intros value db Hne Hall.
  assert (Hlike : forall column,
             ilike column (py "%" ++ value ++ py "%") = true).
  { intros column. unfold ilike. apply like_percents.
    - unfold lower. rewrite map_app. discriminate.
    - unfold lower. rewrite !map_app, !forallb_app.
      assert (Hv : forallb (Ascii.eqb "%") (map PyStr.to_lower value) = true).
      { clear -Hall. induction value as [|c v IH]; [reflexivity|].
        cbn [forallb map] in *. apply andb_true_iff in Hall as [Hc Hv].
        apply Ascii.eqb_eq in Hc. subst c. now rewrite (IH Hv). }
      now rewrite Hv. }
  apply truthy_nonempty in Hne.
  unfold list_components, list_doc_sections, filtered. rewrite Hne.
  split; rewrite filter_all; try reflexivity; intros x; apply Hlike.
Qed.

Lemma X12_witness :
  list_components (Some (py "%%")) (staged mixed_tree)
  = list_components None (staged mixed_tree).
Proof.
  apply (X12_percent_filter_lists_all (value := py "%%")).
  - discriminate.
  - reflexivity.
Defined.

(** ** Listing classifications *)

Lemma distinct_values_In (l : list str) (x : str) :
  In x (distinct_values l) <-> In x l.
Proof.
  induction l as [|y l IH]; [reflexivity|]. cbn [distinct_values].
  destruct (tuple_in y l) eqn:E.
  - rewrite IH. split; [now right|]. intros [<- | H]; [|exact H].
    now apply tuple_in_In.
  - cbn [In]. now rewrite IH.
Qed.

Lemma distinct_values_NoDup (l : list str) : NoDup (distinct_values l).
Proof.
  induction l as [|y l IH]; [constructor|]. cbn [distinct_values].
  destruct (tuple_in y l) eqn:E; [exact IH|].
  constructor; [|exact IH]. rewrite distinct_values_In. intros H.
  apply tuple_in_In in H. congruence.
Qed.

Lemma sorted_distinct_values (l : list str) :
  ascending (fun s => s) (sorted (fun s => s) (distinct_values l))
  /\ NoDup (sorted (fun s => s) (distinct_values l))
  /\ forall x, In x (sorted (fun s => s) (distinct_values l)) <-> In x l.
Proof.
  split; [apply sorted_ascending|]. split.
  - apply (Permutation_NoDup (Permutation_sym (sorted_perm _ _))).
    apply distinct_values_NoDup.
  - intros x. now rewrite sorted_In, distinct_values_In.
Qed.

(** X13: the categories and the sections an endpoint lists are in
    ascending order, each once, and are exactly the classifications that
    some stored record has. *)
Theorem X13_classifications_listed_once :
  forall db,
    (ascending (fun s => s) (get_categories db)
     /\ NoDup (get_categories db)
     /\ forall x, In x (get_categories db)
                  <-> exists c, In c (components db)
                                /\ Component.category c = x)
    /\ (ascending (fun s => s) (get_sections db)
        /\ NoDup (get_sections db)
        /\ forall x, In x (get_sections db)
                     <-> exists d, In d (doc_sections db)
                                   /\ DocSection.section d = x).
Proof.
  intros db. unfold get_categories, get_sections. split.
  - destruct (sorted_distinct_values (map Component.category (components db)))
      as (Ha & Hn & Hi).
    split; [exact Ha|]. split; [exact Hn|].
    intros x. rewrite Hi, in_map_iff. split; intros (c & H1 & H2); now exists c.
  - destruct (sorted_distinct_values (map DocSection.section (doc_sections db)))
      as (Ha & Hn & Hi).
    split; [exact Ha|]. split; [exact Hn|].
    intros x. rewrite Hi, in_map_iff. split; intros (d & H1 & H2); now exists d.
Qed.

Lemma staged_component_category (docs : tree) (c : Component.t) :
  In c (components (staged docs)) ->
  exists p, Component.category c = get_category_from_path p.
Proof.
  intros Hc. unfold staged in Hc. cbn [components] in Hc.
  destruct (stage_components_records (library_files docs) [])
    as (cs & E & Hcs).
  rewrite E in Hc. cbn [app] in Hc.
  destruct (@Forall2_In_l _ _ _ _ _ _ Hcs Hc) as ([p t] & _ & _ & _ & H & _).
  now exists p.
Qed.

Lemma staged_doc_section_section (docs : tree) (d : DocSection.t) :
  In d (doc_sections (staged docs)) ->
  exists p, DocSection.section d = get_section_from_path p.
Proof.
  intros Hd. unfold staged in Hd. cbn [doc_sections] in Hd.
  destruct (stage_doc_sections_records (doc_files docs) [])
    as (ds & E & Hds).
  rewrite E in Hd. cbn [app] in Hd.
  destruct (@Forall2_In_l _ _ _ _ _ _ Hds Hd) as ([p t] & _ & _ & _ & H & _).
  now exists p.
Qed.

(** X14: whatever the tree and the outcome of the rebuild, the categories
    and sections listed afterwards are normalized: none is empty, none
    holds an underscore or a hyphen. *)
Theorem X14_listed_classifications_are_normalized :
  forall docs db x,
    (In x (get_categories (snd (populate_database docs db))) ->
     x <> [] /\ existsb (Ascii.eqb "_") x = false
     /\ existsb (Ascii.eqb "-") x = false)
    /\ (In x (get_sections (snd (populate_database docs db))) ->
        x <> [] /\ existsb (Ascii.eqb "_") x = false
        /\ existsb (Ascii.eqb "-") x = false).
Proof.
  intros docs db x. rewrite populate_database_eq.
  unfold get_categories, get_sections.
  destruct (distinct_names _ _); cbn [snd]; split; intros H;
    try (cbn in H; contradiction);
    apply sorted_In, distinct_values_In, in_map_iff in H as (r & <- & Hr).
  - destruct (staged_component_category _ _ Hr) as (p & ->).
    rewrite get_category_classification.
    apply classification_clean. intros y. apply parts_nonempty.
  - destruct (staged_doc_section_section _ _ Hr) as (p & ->).
    rewrite get_section_classification.
    apply classification_clean. intros y. apply parts_nonempty.
Qed.

Lemma X14_witness :
  py "Forms" <> []
  /\ existsb (Ascii.eqb "_") (py "Forms") = false
  /\ existsb (Ascii.eqb "-") (py "Forms") = false.
Proof.
  apply (proj1 (X14_listed_classifications_are_normalized
                  two_buttons old_catalog (py "Forms"))).
  vm_compute. left. reflexivity.
Defined.

(** ** Rebuilds that store nothing *)

Lemma markdown_files_none (keep : str * option str -> bool)
      (skip : str -> bool) (top : str) (t : tree) :
  (forall f, keep f = true -> is_markdown f = false) ->
  markdown_files skip top (prune keep t) = [].
Proof.
  intros Hkeep. unfold markdown_files. rewrite walk_prune.
  induction (walk top t) as [|rf w IH]; [reflexivity|].
  cbn [map flat_map fst snd]. rewrite IH, app_nil_r.
  destruct (skip (fst rf)); [reflexivity|].
  induction (snd rf) as [|f fs IHf]; [reflexivity|].
  cbn [filter]. destruct (keep f) eqn:Hk; [|exact IHf].
  cbn [filter]. now rewrite (Hkeep f Hk).
Qed.

(** X15: a tree that holds no markdown file, whatever else it holds,
    rebuilds to two empty catalogs: the rebuild completes and the rows the
    database held are gone. *)
Theorem X15_no_markdown_empties_catalogs :
  forall keep docs db,
    (forall f, keep f = true -> is_markdown f = false) ->
    populate_database (prune keep docs) db = (Ok tt, empty_db).
Proof.
  intros keep docs db Hkeep. rewrite populate_database_eq.
  assert (E : staged (prune keep docs) = empty_db).
  { unfold staged, doc_files, empty_db. f_equal.
    - destruct docs as [files dirs]. cbn [prune library_files].
      rewrite subdir_prune.
      destruct (subdir (py "library") dirs); cbn [option_map];
        [now rewrite markdown_files_none|reflexivity].
    - now rewrite markdown_files_none. }
  now rewrite E.
Qed.

Lemma X15_witness :
  populate_database (prune (fun f => negb (is_markdown f)) mixed_tree)
                    old_catalog
  = (Ok tt, empty_db).
Proof.
  apply X15_no_markdown_empties_catalogs.
  intros f Hf. now apply negb_true_iff in Hf.
Defined.

(** ** A second collision *)

Lemma stage_components_extends (fs : list (str * option str))
      (acc : list Component.t) :
  exists added, stage_components acc fs = acc ++ added.
Proof.
  destruct (stage_components_records fs acc) as (added & E & _).
  now exists added.
Qed.

Lemma stage_components_keeps_name (fs : list (str * option str))
      (acc : list Component.t) (n : str) :
  In n (map Component.name acc) ->
  In n (map Component.name (stage_components acc fs)).
Proof.
  intros H. destruct (stage_components_extends fs acc) as (added & ->).
  rewrite map_app. apply in_or_app. now left.
Qed.

Lemma staged_component_takes (acc : list Component.t) (p text : str) :
  In (fst (extract_component_info text p))
     (map Component.name
          (acc ++ [staged_component (map Component.name acc) p text])).
Proof.
  rewrite map_app. apply in_or_app.
  unfold staged_component. cbn [map Component.name].
  destruct (tuple_in _ _) eqn:E.
  - left. now apply tuple_in_In.
  - right. now left.
Qed.

Lemma staged_component_renamed (taken : list str) (p text : str) :
  In (fst (extract_component_info text p)) taken ->
  Component.name (staged_component taken p text)
  = suffixed (fst (extract_component_info text p)) (get_category_from_path p).
Proof.
  intros H. apply tuple_in_In in H. unfold staged_component.
  cbn [Component.name]. now rewrite H.
Qed.

(** X16: renaming is tried once.  When a readable library file drafts a
    name, and two later readable files of one category draft that name
    too, both are renamed to the same name, the rebuild raises, and both
    catalogs are left empty. *)
Theorem X16_second_collision_aborts :
  forall docs db fs1 p1 t1 fs2 p2 t2 fs3 p3 t3 fs4,
    library_files docs
    = fs1 ++ (p1, Some t1) :: fs2 ++ (p2, Some t2) :: fs3
          ++ (p3, Some t3) :: fs4 ->
    fst (extract_component_info t2 p2) = fst (extract_component_info t1 p1) ->
    fst (extract_component_info t3 p3) = fst (extract_component_info t1 p1) ->
    get_category_from_path p3 = get_category_from_path p2 ->
    populate_database docs db = (Raised, empty_db).
Proof.
  intros docs db fs1 p1 t1 fs2 p2 t2 fs3 p3 t3 fs4 Hfiles H2 H3 Hcat.
  rewrite populate_database_eq.
  assert (Hdup : ~ NoDup (map Component.name (components (staged docs)))).
  { unfold staged. cbn [components]. rewrite Hfiles.
    rewrite stage_components_app. cbn [stage_components].
    set (acc1 := stage_components [] fs1).
    set (r1 := staged_component (map Component.name acc1) p1 t1).
    rewrite stage_components_app. cbn [stage_components].
    set (acc2 := stage_components (acc1 ++ [r1]) fs2).
    assert (Hn2 : In (fst (extract_component_info t1 p1))
                     (map Component.name acc2))
      by apply stage_components_keeps_name, staged_component_takes.
    set (r2 := staged_component (map Component.name acc2) p2 t2).
    rewrite stage_components_app. cbn [stage_components].
    set (acc3 := stage_components (acc2 ++ [r2]) fs3).
    assert (Hr2 : In (Component.name r2) (map Component.name acc3)).
    { apply stage_components_keeps_name. rewrite map_app.
      apply in_or_app. right. now left. }
    assert (Hn3 : In (fst (extract_component_info t1 p1))
                     (map Component.name acc3)).
    { apply stage_components_keeps_name. rewrite map_app.
      apply in_or_app. now left. }
    set (r3 := staged_component (map Component.name acc3) p3 t3).
    assert (Heq : Component.name r3 = Component.name r2).
    { unfold r3, r2. rewrite !staged_component_renamed.
      - now rewrite H2, H3, Hcat.
      - now rewrite H2.
      - now rewrite H3. }
    destruct (stage_components_extends fs4 (acc3 ++ [r3])) as (added & ->).
    rewrite !map_app. cbn [map]. rewrite <- app_assoc. cbn [app].
    intros Hnd. apply NoDup_remove_2 in Hnd. apply Hnd.
    apply in_or_app. left. now rewrite Heq. }
  unfold distinct_names.
  destruct (distinct (map Component.name (components (staged docs)))) eqn:E;
    [|reflexivity].
  apply distinct_NoDup in E. contradiction.
Qed.

Lemma X16_witness :
  populate_database three_buttons old_catalog = (Raised, empty_db).
Proof.
  apply (@X16_second_collision_aborts three_buttons old_catalog
           [] (py "reflex_docs/library/forms/button.md") button_doc
           [] (py "reflex_docs/library/inputs/button.md") button_doc
           [] (py "reflex_docs/library/inputs/toggle.md") button_doc []);
    vm_compute; reflexivity.
Defined.

(** ** Filtering by a stored category *)

Lemma contains_itself (s : str) : PyStr.contains s s = true.
Proof.
  apply contains_prefix. rewrite <- (app_nil_r s) at 2. apply startswith_app.
Qed.

(** X17: after a rebuild, a stored record is listed when the listing is
    filtered by the record's own classification, provided that
    classification holds no [%] sign. *)
Theorem X17_filter_by_own_classification :
  forall docs db,
    (forall c,
       In c (components (snd (populate_database docs db))) ->
       existsb (Ascii.eqb "%") (Component.category c) = false ->
       In (Component.name c)
          (list_components (Some (Component.category c))
                           (snd (populate_database docs db))))
    /\ (forall d,
          In d (doc_sections (snd (populate_database docs db))) ->
          existsb (Ascii.eqb "%") (DocSection.section d) = false ->
          In (DocSection.name d)
             (list_doc_sections (Some (DocSection.section d))
                                (snd (populate_database docs db)))).
Proof.
  intros docs db. rewrite populate_database_eq.
  destruct (distinct_names _ _); cbn [snd];
    [|split; intros x Hx; cbn in Hx; contradiction].
  split.
  - intros c Hc Hp.
    destruct (staged_component_category _ _ Hc) as (p & Hcat).
    assert (Hclean : Component.category c <> []
                     /\ existsb (Ascii.eqb "_") (Component.category c) = false
                     /\ existsb (Ascii.eqb "-") (Component.category c) = false).
    { rewrite Hcat, get_category_classification.
      apply classification_clean. intros y. apply parts_nonempty. }
    destruct Hclean as (Hne & Hu & _). apply truthy_nonempty in Hne.
    unfold list_components, filtered. rewrite Hne.
    apply in_map. apply sorted_In, filter_In. split; [exact Hc|].
    rewrite ilike_plain by assumption. apply contains_itself.
  - intros d Hd Hp.
    destruct (staged_doc_section_section _ _ Hd) as (p & Hsec).
    assert (Hclean : DocSection.section d <> []
                     /\ existsb (Ascii.eqb "_") (DocSection.section d) = false
                     /\ existsb (Ascii.eqb "-") (DocSection.section d) = false).
    { rewrite Hsec, get_section_classification.
      apply classification_clean. intros y. apply parts_nonempty. }
    destruct Hclean as (Hne & Hu & _). apply truthy_nonempty in Hne.
    unfold list_doc_sections, filtered. rewrite Hne.
    apply in_map. apply sorted_In, filter_In. split; [exact Hd|].
    rewrite ilike_plain by assumption. apply contains_itself.
Qed.

Lemma X17_witness :
  In (py "Button_Inputs")
     (list_components (Some (py "Inputs"))
                      (snd (populate_database two_buttons old_catalog))).
Proof.
  apply (proj1 (X17_filter_by_own_classification two_buttons old_catalog)
           (staged_component [py "Button"]
              (py "reflex_docs/library/inputs/button.md") button_doc)).
  - vm_compute. right. left. reflexivity.
  - vm_compute. reflexivity.
Defined.
